(** * machina.algos.mpc: training loop of the dynamics model

    A shallow embedding of [src/machina/algos/mpc.py] ([update_dm] and
    [train_dm]) and the properties of its specification.

    - Python [int] is [Z]; Python [float] is IEEE 754 binary64, modelled
      with the executable [spec_float] operations of the Standard Library.
    - A Python exception is a value of [exn]; fallible code returns
      [result]; code that touches the model, the optimizer, the logger or
      the trajectory sources runs in the state-and-exception monad [M].
    - A batch is a [dict] from field names to tensors: [gmap string Tensor].
*)

From Stdlib Require Import ZArith QArith Lia SpecFloat.
From stdpp Require Import base option list gmap strings.

Set Default Proof Using "Type".
Local Open Scope Z_scope.

(** ** Exceptions and results *)

Inductive exn : Type :=
| ZeroDivisionError
| OverflowError
| ValueError
| TypeError
| KeyError (key : string)
| RuntimeError (msg : string)
| ExternalError (msg : string).

Inductive result (A : Type) : Type :=
| Ok (a : A)
| Raise (e : exn).
Arguments Ok {A} a.
Arguments Raise {A} e.

Definition result_bind {A B} (r : result A) (k : A -> result B) : result B :=
  match r with
  | Ok a => k a
  | Raise e => Raise e
  end.

Declare Scope result_scope.
Delimit Scope result_scope with result.
Notation "'try' x <- r ; k" := (result_bind r (fun x => k))
  (at level 10, x pattern, r at level 100, k at level 200) : result_scope.

(** ** Python numbers *)

Module Py.

(** binary64: 53 bits of precision, exponent of the infinities 1024. *)
Definition prec : Z := 53.
Definition emax : Z := 1024.
Abbreviation float64 := spec_float.

(** [float(n)] for an [int]: round to nearest, ties to even;
    [OverflowError] when the rounded value leaves the finite range. *)
Definition float_of_int (n : Z) : result float64 :=
  match binary_normalize prec emax n 0 false with
  | S754_infinity _ => Raise OverflowError
  | x => Ok x
  end.

(** [x * y] on floats never raises: overflow gives an infinity. *)
Definition float_mul (x y : float64) : float64 := SFmul prec emax x y.

(** [int(x)] for a float: truncation toward zero, [ValueError] on NaN and
    [OverflowError] on an infinity. *)
Definition int_of_float (x : float64) : result Z :=
  match x with
  | S754_nan => Raise ValueError
  | S754_infinity _ => Raise OverflowError
  | S754_zero _ => Ok 0
  | S754_finite s m e =>
      let magnitude :=
        if 0 <=? e then Z.shiftl (Z.pos m) e else Z.shiftr (Z.pos m) (- e) in
      Ok (if s then - magnitude else magnitude)
  end.

(** [n * x] with [n] an [int] and [x] a [float]: the [int] is converted
    first, the product is the float product. *)
Definition int_mul_float (n : Z) (x : float64) : result float64 :=
  (try a <- float_of_int n ; Ok (float_mul a x))%result.

(** [a // b] on [int]: floor division, [ZeroDivisionError] for [b = 0]. *)
Definition floordiv (a b : Z) : result Z :=
  if b =? 0 then Raise ZeroDivisionError else Ok (a / b).

(** The float that a decimal literal [digits / 10^scale] denotes, for
    [digits] and [10^scale] below [2^53]: the correctly rounded quotient
    of two exactly representable integers. *)
Definition decimal (digits : Z) (scale : nat) : float64 :=
  SFdiv prec emax
    (binary_normalize prec emax digits 0 false)
    (binary_normalize prec emax (10 ^ Z.of_nat scale) 0 false).

(** The exact rational value of a finite float; [0] for the others. *)
Definition value (x : float64) : Q :=
  match x with
  | S754_finite s m e =>
      let mag := if 0 <=? e then inject_Z (Z.pos m * 2 ^ e)
                 else Qmake (Z.pos m) (Z.to_pos (2 ^ (- e))) in
      if s then Qopp mag else mag
  | _ => 0%Q
  end.

Definition is_finite (x : float64) : bool :=
  match x with
  | S754_zero _ | S754_finite _ _ _ => true
  | _ => false
  end.

(** [z] is [q] truncated toward zero. *)
Definition truncates (q : Q) (z : Z) : Prop :=
  ((0 <= q)%Q -> (inject_Z z <= q)%Q /\ (q < inject_Z (z + 1))%Q) /\
  ((q <= 0)%Q -> (inject_Z (z - 1) < q)%Q /\ (q <= inject_Z z)%Q).

End Py.

(** ** Lines 53-54 of [train_dm]: the two sub-batch sizes *)

Definition split_batch_size (batch_size : Z) (rl_batch_rate : Py.float64)
  : result (Z * Z) :=
  (try product <- Py.int_mul_float batch_size rl_batch_rate ;
   try batch_size_rl <- Py.int_of_float product ;
   let batch_size_rand := batch_size - batch_size_rl in
   Ok (batch_size_rl, batch_size_rand))%result.

(** ** Tensors and batches *)

(** A tensor with at least one dimension: its slices along dimension 0 (one
    per sample, each flattened) and the sizes of the other dimensions. *)
Record Tensor : Type := mkTensor {
  trailing : list nat;
  rows : list (list Py.float64)
}.

(** [t.shape[0]], the extent of the sample dimension. *)
Definition n_samples (t : Tensor) : nat := length (rows t).

(** A one-dimensional tensor of shape [(0,)]; [torch.cat] skips such an
    argument whatever the shape of the others. *)
Definition is_legacy_empty (t : Tensor) : bool :=
  match trailing t, rows t with
  | [], [] => true
  | _, _ => false
  end.

Definition same_trailing (a b : Tensor) : bool :=
  bool_decide (trailing a = trailing b).

(** [torch.cat([a, b], dim=0)]: the arguments agree on every dimension but
    the first (or are of shape [(0,)]); the samples of [a] come first. *)
Definition torch_cat (a b : Tensor) : result Tensor :=
  if is_legacy_empty a then Ok b
  else if is_legacy_empty b then Ok a
  else if same_trailing a b then Ok (mkTensor (trailing a) (rows a ++ rows b))
  else Raise (RuntimeError "Sizes of tensors must match except in dimension 0").

(** A batch, as the trajectory sources yield it and as [train_dm] builds
    it: a [dict] from field names to tensors. [len(batch)] is the number of
    its keys, [size batch]. *)
Abbreviation Batch := (gmap string Tensor).

(** [d[key]]: [KeyError] when the key is absent. *)
Definition getitem (d : Batch) (key : string) : result Tensor :=
  match d !! key with
  | Some t => Ok t
  | None => Raise (KeyError key)
  end.

(** ** Lines 65-80 of [train_dm]: one merged batch from a pair of batches *)

Definition merge_batch (rl_batch rand_batch : Batch) : result Batch :=
  (let batch : Batch := ∅ in
   if bool_decide (size rl_batch = 0%nat) then
     try obs <- getitem rand_batch "obs" ;
     let batch := <["obs" := obs]> batch in
     try acs <- getitem rand_batch "acs" ;
     let batch := <["acs" := acs]> batch in
     try next_obs <- getitem rand_batch "next_obs" ;
     let batch := <["next_obs" := next_obs]> batch in
     Ok batch
   else if bool_decide (size rand_batch = 0%nat) then
     try obs <- getitem rl_batch "obs" ;
     let batch := <["obs" := obs]> batch in
     try acs <- getitem rl_batch "acs" ;
     let batch := <["acs" := acs]> batch in
     try next_obs <- getitem rl_batch "next_obs" ;
     let batch := <["next_obs" := next_obs]> batch in
     Ok batch
   else
     try rand_obs <- getitem rand_batch "obs" ;
     try rl_obs <- getitem rl_batch "obs" ;
     try obs <- torch_cat rand_obs rl_obs ;
     let batch := <["obs" := obs]> batch in
     try rand_acs <- getitem rand_batch "acs" ;
     try rl_acs <- getitem rl_batch "acs" ;
     try acs <- torch_cat rand_acs rl_acs ;
     let batch := <["acs" := acs]> batch in
     try rand_next_obs <- getitem rand_batch "next_obs" ;
     try rl_next_obs <- getitem rl_batch "next_obs" ;
     try next_obs <- torch_cat rand_next_obs rl_next_obs ;
     let batch := <["next_obs" := next_obs]> batch in
     Ok batch)%result.

(** The fields [train_dm] copies or concatenates. *)
Definition merged_fields : list string := ["obs"; "acs"; "next_obs"].

(** ** The loss value: from a scalar tensor to a host array *)

Inductive Device : Type := Cpu | Cuda (index : nat).

(** The floating-point element types of a loss tensor. [numpy] has the
    first three and lacks [bfloat16]. *)
Inductive DType : Type := Float64 | Float32 | Float16 | BFloat16.

Definition numpy_supports (d : DType) : bool :=
  match d with
  | BFloat16 => false
  | _ => true
  end.

(** A zero-dimensional [torch.Tensor], as the loss functional returns it:
    its value, its element type, where it lives, and its link to the
    computation graph. *)
Record ScalarTensor : Type := mkScalar {
  item : Py.float64;
  dtype : DType;
  device : Device;
  requires_grad : bool;
  grad_fn : option string
}.

(** A zero-dimensional [numpy.ndarray]: a value of some element type in
    host memory. The type has no device and no gradient field. *)
Record NdArray : Type := mkNdArray { nd_item : Py.float64; nd_dtype : DType }.

(** The Python objects that occur as a loss value, with their run-time
    type. *)
Inductive PyObj : Type :=
| PyFloat (x : Py.float64)
| PyNdarray (a : NdArray)
| PyTensor (t : ScalarTensor).

Definition type_name (o : PyObj) : string :=
  match o with
  | PyFloat _ => "float"
  | PyNdarray _ => "numpy.ndarray"
  | PyTensor _ => "torch.Tensor"
  end.

(** [t.detach()]: same value, element type and device, cut from the
    graph. *)
Definition detach (t : ScalarTensor) : ScalarTensor :=
  mkScalar (item t) (dtype t) (device t) false None.

(** [t.cpu()]: same value and element type, in host memory. *)
Definition cpu (t : ScalarTensor) : ScalarTensor :=
  mkScalar (item t) (dtype t) Cpu (requires_grad t) (grad_fn t).

(** [t.numpy()]: refused with [RuntimeError] for a tensor that requires
    grad, and with [TypeError] for a tensor that lives on an accelerator or
    whose element type [numpy] lacks. *)
Definition numpy (t : ScalarTensor) : result NdArray :=
  if requires_grad t then
    Raise (RuntimeError "Can't call numpy() on Tensor that requires grad")
  else
    match device t with
    | Cpu =>
        if numpy_supports (dtype t) then Ok (mkNdArray (item t) (dtype t))
        else Raise TypeError
    | Cuda _ => Raise TypeError
    end.

(** ** The state-and-exception monad *)

(** A computation reads and changes the world (model parameters and
    gradients, optimizer state, random generators, the log) and either
    returns a value or raises; the changes made before an exception stay. *)
Definition M (W A : Type) : Type := W -> result A * W.

Definition ret {W A} (a : A) : M W A := fun w => (Ok a, w).

Definition bind {W A B} (m : M W A) (k : A -> M W B) : M W B :=
  fun w =>
    match m w with
    | (Ok a, w') => k a w'
    | (Raise e, w') => (Raise e, w')
    end.

Definition lift {W A} (r : result A) : M W A := fun w => (r, w).

Declare Scope monad_scope.
Delimit Scope monad_scope with monad.
Notation "'do' x <- m ; k" := (bind m (fun x => k))
  (at level 10, x pattern, m at level 100, k at level 200) : monad_scope.
Notation "'run' m ; k" := (bind m (fun _ => k))
  (at level 10, m at level 100, k at level 200) : monad_scope.

(** A trajectory source: [num_step], and [random_batch(batch_size, epoch)],
    a generator: a finite lazy sequence whose elements are drawn one at a
    time, each draw a computation of its own. *)
Record Traj (W : Type) : Type := mkTraj {
  num_step : Z;
  random_batch : Z -> Z -> list (M W Batch)
}.
Arguments mkTraj {W} num_step random_batch.
Arguments num_step {W} t.
Arguments random_batch {W} t batch_size epoch.

Section Training.

(** The world, and the handles of the two stateful collaborators. *)
Context {W Model Optimizer : Type}.

(** [lf.dynamics(dm, batch, target=target, td=td)]. *)
Variable lf_dynamics : Model -> Batch -> string -> bool -> M W ScalarTensor.
(** [optim_dm.zero_grad()], [dm_loss.backward()], [optim_dm.step()]. *)
Variable zero_grad : Optimizer -> M W unit.
Variable backward : ScalarTensor -> M W unit.
Variable optim_step : Optimizer -> M W unit.
(** [logger.log(message)]. *)
Variable logger_log : string -> M W unit.

(** *** [update_dm] (lines 15-21) *)
Definition update_dm (dm : Model) (optim_dm : Optimizer) (batch : Batch)
    (target : string) (td : bool) : M W PyObj :=
  (do dm_loss <- lf_dynamics dm batch target td ;
   run zero_grad optim_dm ;
   run backward dm_loss ;
   run optim_step optim_dm ;
   do a <- lift (numpy (cpu (detach dm_loss))) ;
   ret (PyNdarray a))%monad.

(** *** Lines 58-61: the number of steps of an epoch *)
Definition steps_per_epoch (rl_traj rand_traj : Traj W)
    (batch_size_rl batch_size_rand : Z) : result Z :=
  if 0 <? batch_size_rand then
    Py.floordiv (num_step rand_traj) batch_size_rand
  else
    Py.floordiv (num_step rl_traj) batch_size_rl.

Section Loop.
Variables (dyn_model : Model) (optim_dm : Optimizer)
          (target : string) (td : bool).

(** The body of the inner loop (lines 65-84) up to the append. *)
Definition train_step (rl_batch rand_batch : Batch) : M W PyObj :=
  (do batch <- lift (merge_batch rl_batch rand_batch) ;
   update_dm dyn_model optim_dm batch target td)%monad.

(** The inner loop (line 64): [zip] draws from the on-policy generator
    first and stops as soon as either generator is exhausted. *)
Fixpoint zip_loop (rl_gen rand_gen : list (M W Batch))
    (dm_losses : list PyObj) : M W (list PyObj) :=
  match rl_gen with
  | [] => ret dm_losses
  | next_rl :: rl_gen' =>
      (do rl_batch <- next_rl ;
       match rand_gen with
       | [] => ret dm_losses
       | next_rand :: rand_gen' =>
           do rand_batch <- next_rand ;
           do dm_loss <- train_step rl_batch rand_batch ;
           zip_loop rl_gen' rand_gen' (dm_losses ++ [dm_loss])
       end)%monad
  end.

(** The outer loop (line 63), over [range(epoch)]; both generators are
    created anew in every epoch. *)
Fixpoint epoch_loop (rl_traj rand_traj : Traj W)
    (batch_size_rl batch_size_rand step : Z)
    (epochs : nat) (dm_losses : list PyObj) : M W (list PyObj) :=
  match epochs with
  | O => ret dm_losses
  | S epochs' =>
      (do dm_losses' <-
          zip_loop (random_batch rl_traj batch_size_rl step)
                   (random_batch rand_traj batch_size_rand step)
                   dm_losses ;
       epoch_loop rl_traj rand_traj batch_size_rl batch_size_rand step
                  epochs' dm_losses')%monad
  end.

(** The loss history as the specification describes it, a relation between
    the world before, the losses and the world after. [epoch_losses] holds
    the losses of one epoch, first step first: the generators are advanced
    in lockstep, the on-policy one first, until either is exhausted, and
    every pair of batches contributes the loss of its [train_step]. *)
Inductive epoch_losses
  : list (M W Batch) -> list (M W Batch) -> W -> list PyObj -> W -> Prop :=
| losses_rl_exhausted rand_gen w :
    epoch_losses [] rand_gen w [] w
| losses_rand_exhausted next_rl rl_gen rl_batch w w1 :
    next_rl w = (Ok rl_batch, w1) ->
    epoch_losses (next_rl :: rl_gen) [] w [] w1
| losses_step next_rl rl_gen next_rand rand_gen rl_batch rand_batch
      dm_loss losses w w1 w2 w3 w' :
    next_rl w = (Ok rl_batch, w1) ->
    next_rand w1 = (Ok rand_batch, w2) ->
    train_step rl_batch rand_batch w2 = (Ok dm_loss, w3) ->
    epoch_losses rl_gen rand_gen w3 losses w' ->
    epoch_losses (next_rl :: rl_gen) (next_rand :: rand_gen) w
                 (dm_loss :: losses) w'.

(** [run_losses] holds the losses of a number of epochs, first epoch
    first. *)
Inductive run_losses (rl_traj rand_traj : Traj W)
    (batch_size_rl batch_size_rand step : Z)
  : nat -> W -> list PyObj -> W -> Prop :=
| run_no_epoch w :
    run_losses rl_traj rand_traj batch_size_rl batch_size_rand step O w [] w
| run_epoch epochs first rest w w1 w' :
    epoch_losses (random_batch rl_traj batch_size_rl step)
                 (random_batch rand_traj batch_size_rand step) w first w1 ->
    run_losses rl_traj rand_traj batch_size_rl batch_size_rand step
               epochs w1 rest w' ->
    run_losses rl_traj rand_traj batch_size_rl batch_size_rand step
               (S epochs) w (first ++ rest) w'.
End Loop.

(** *** [train_dm] (lines 24-87) *)
Definition train_dm (rl_traj rand_traj : Traj W) (dyn_model : Model)
    (optim_dm : Optimizer) (epoch batch_size : Z)
    (rl_batch_rate : Py.float64) (target : string) (td : bool)
    : M W (gmap string (list PyObj)) :=
  (do sizes <- lift (split_batch_size batch_size rl_batch_rate) ;
   let batch_size_rl := fst sizes in
   let batch_size_rand := snd sizes in
   let dm_losses := [] in
   run logger_log "Optimizing..." ;
   do step <- lift (steps_per_epoch rl_traj rand_traj
                      batch_size_rl batch_size_rand) ;
   do dm_losses <-
      epoch_loop dyn_model optim_dm target td rl_traj rand_traj
                 batch_size_rl batch_size_rand step
                 (Z.to_nat epoch) dm_losses ;
   run logger_log "Optimization finished!" ;
   ret {[ "DynModelLoss" := dm_losses ]})%monad.

End Training.

(** ** A small world to run the definitions in

    The world counts the optimizer steps taken so far. The loss functional
    returns the number of samples of [obs] as a loss that lives on an
    accelerator and is attached to the graph, and fails once [fail_at]
    steps have been taken; a source yields batches of four fields with
    [batch_size] samples each. *)

Module Toy.

Definition of_nat (n : nat) : Py.float64 :=
  binary_normalize Py.prec Py.emax (Z.of_nat n) 0 false.

Definition tensor (width : nat) (x : Py.float64) (n : nat) : Tensor :=
  mkTensor [width] (replicate n (replicate width x)).

Definition batch (x : Py.float64) (n : nat) : Batch :=
  <["obs" := tensor 2 x n]> (<["acs" := tensor 1 x n]>
    (<["next_obs" := tensor 2 x n]> (<["rews" := mkTensor [] (replicate n [x])]> ∅))).

Definition lf_dynamics (fail_at : option nat)
    (dm : unit) (b : Batch) (target : string) (td : bool) : M nat ScalarTensor :=
  fun w =>
    if bool_decide (fail_at = Some w) then
      (Raise (ExternalError "loss is not finite"), w)
    else
      match b !! "obs", b !! target with
      | Some obs, Some _ =>
          (Ok (mkScalar (of_nat (n_samples obs)) Float32 (Cuda 0) true
                        (Some "MseLossBackward")), w)
      | _, _ => (Raise (KeyError target), w)
      end.

Definition zero_grad (o : unit) : M nat unit := ret tt.

Definition backward (t : ScalarTensor) : M nat unit :=
  if requires_grad t then ret tt
  else lift (Raise (RuntimeError "element 0 of tensors does not require grad")).

Definition optim_step (o : unit) : M nat unit := fun w => (Ok tt, S w).

Definition logger_log (msg : string) : M nat unit := ret tt.

Definition traj (x : Py.float64) (n : Z) : Traj nat :=
  mkTraj n (fun batch_size epoch =>
              replicate (Z.to_nat epoch) (ret (batch x (Z.to_nat batch_size)))).

(** The merged batch of a pair of batches, [∅] when the merge raises. *)
Definition merged_of (rl_batch rand_batch : Batch) : Batch :=
  match merge_batch rl_batch rand_batch with
  | Ok b => b
  | Raise _ => ∅
  end.

(** Batches of 460 on-policy samples and of 52 random samples. *)
Definition rl_batch : Batch := batch (of_nat 1) 460.
Definition rand_batch : Batch := batch (of_nat 2) 52.

(** Sources of 100 on-policy steps and of 1000 random steps. *)
Definition rl_traj : Traj nat := traj (of_nat 1) 100.
Definition rand_traj : Traj nat := traj (of_nat 2) 1000.

Definition update_dm (fail_at : option nat) :=
  update_dm (lf_dynamics fail_at) zero_grad backward optim_step.

Definition train_dm (fail_at : option nat) :=
  train_dm (lf_dynamics fail_at) zero_grad backward optim_step logger_log.

(** A loss functional for a model in [bfloat16]: the loss is a tensor of
    that element type. *)
Definition bf16_lf_dynamics
    (dm : unit) (b : Batch) (target : string) (td : bool) : M nat ScalarTensor :=
  ret (mkScalar (of_nat 3) BFloat16 (Cuda 0) true (Some "MseLossBackward")).

(** Sources of 100 on-policy steps and of 52 random steps: one step in an
    epoch for a batch size of 512 at rate 0.9. *)
Definition one_step_rand_traj : Traj nat := traj (of_nat 2) 52.

(** A source whose generator yields at most [cap] batches, and one whose
    draws fail from the draw of index [bad] on. *)
Definition capped_traj (cap : nat) (x : Py.float64) (n : Z) : Traj nat :=
  mkTraj n (fun batch_size epoch =>
              replicate (Nat.min cap (Z.to_nat epoch))
                        (ret (batch x (Z.to_nat batch_size)))).

Definition failing_draw : M nat Batch :=
  lift (Raise (ExternalError "source exhausted")).

Definition flaky_traj (bad : nat) (x : Py.float64) (n : Z) : Traj nat :=
  mkTraj n (fun batch_size epoch =>
              replicate (Nat.min bad (Z.to_nat epoch))
                        (ret (batch x (Z.to_nat batch_size)))
              ++ replicate (Z.to_nat epoch - bad) failing_draw).

(** A loss functional that refuses every batch with a [rews] field, and
    every target but [next_obs]. *)
Definition picky_lf_dynamics
    (dm : unit) (b : Batch) (target : string) (td : bool) : M nat ScalarTensor :=
  if bool_decide (is_Some (b !! "rews")) then
    lift (Raise (ExternalError "unexpected field"))
  else if bool_decide (target = "next_obs") then lf_dynamics None dm b target td
  else lift (Raise (ExternalError "unexpected target")).

End Toy.

(** ** Rounding

    What [j] halvings of the mantissa [M] have kept, in the record the
    rounding of a float product works on: the mantissa is not above
    [M / 2^j], and the round bit is set only if something was lost. *)

Definition shr_inv (M j : Z) (mrs : shr_record) : Prop :=
  0 <= shr_m mrs /\ shr_m mrs * 2 ^ j <= M /\
  (shr_r mrs = true -> shr_m mrs * 2 ^ j < M).

(** * Properties *)

Example split_100_09 : split_batch_size 100 (Py.decimal 9 1) = Ok (90, 10).
Proof. vm_compute. reflexivity. Qed.

Example split_10_033 : split_batch_size 10 (Py.decimal 33 2) = Ok (3, 7).
Proof. vm_compute. reflexivity. Qed.

Example split_512_09 : split_batch_size 512 (Py.decimal 9 1) = Ok (460, 52).
Proof. vm_compute. reflexivity. Qed.

Example decimal_09 : Py.decimal 9 1 = S754_finite false 8106479329266893 (-53).
Proof. vm_compute. reflexivity. Qed.

Example decimal_033 : Py.decimal 33 2 = S754_finite false 5944751508129055 (-54).
Proof. vm_compute. reflexivity. Qed.

Example split_100_029 : split_batch_size 100 (Py.decimal 29 2) = Ok (28, 72).
Proof. vm_compute. reflexivity. Qed.

Example split_3_third :
  split_batch_size 3 (SFdiv Py.prec Py.emax (S754_finite false 1 0) (S754_finite false 3 0)) = Ok (1, 2).
Proof. vm_compute. reflexivity. Qed.


(** ** Python numbers *)

Section NumberFacts.

Lemma truncates_inject_Z (k : Z) : Py.truncates (inject_Z k) k.
Proof.
  split; intros _; split;
    rewrite <- ?Zle_Qle, <- ?Zlt_Qlt; lia.
Qed.

Lemma truncates_fraction (s : bool) (m : positive) (d : Z) :
  0 < d ->
  Py.truncates
    (if s then Qopp (Z.pos m # Z.to_pos d) else (Z.pos m # Z.to_pos d))
    (if s then - (Z.pos m / d) else Z.pos m / d).
Proof.
  intros Hd.
  pose proof (Z.mul_div_le (Z.pos m) d Hd) as Hlo.
  pose proof (Z.mul_succ_div_gt (Z.pos m) d Hd) as Hhi.
  assert (Hq : 0 <= Z.pos m / d) by (apply Z.div_pos; lia).
  destruct s; split; intros H0; unfold Qle, Qlt in *; simpl in *;
    rewrite ?Z2Pos.id in * by lia; split; nia.
Qed.

Lemma int_of_float_truncates (x : Py.float64) (z : Z) :
  Py.int_of_float x = Ok z -> Py.truncates (Py.value x) z.
Proof.
  destruct x as [s | s | | s m e]; simpl; intros H; try discriminate.
  - injection H as <-. apply (truncates_inject_Z 0).
  - injection H as <-. destruct (Z.leb_spec 0 e) as [He | He].
    + rewrite Z.shiftl_mul_pow2 by lia.
      destruct s; [| apply truncates_inject_Z].
      apply (truncates_inject_Z (- (Z.pos m * 2 ^ e))).
    + rewrite Z.shiftr_div_pow2 by lia.
      apply truncates_fraction. apply Z.pow_pos_nonneg; lia.
Qed.

Lemma int_of_float_finite (x : Py.float64) :
  Py.is_finite x = true <-> exists z, Py.int_of_float x = Ok z.
Proof.
  destruct x; simpl; split; intros H; eauto; try discriminate;
    destruct H as [z H]; discriminate.
Qed.

Lemma floordiv_floor (a b q : Z) :
  Py.floordiv a b = Ok q ->
  b <> 0 /\ exists r, a = q * b + r /\ (0 <= r < b \/ b < r <= 0).
Proof.
  unfold Py.floordiv. destruct (Z.eqb_spec b 0) as [-> | Hb]; [discriminate |].
  intros [= <-]. split; [exact Hb |]. exists (a mod b). split.
  - rewrite Z.mul_comm. apply Z.div_mod. exact Hb.
  - destruct (Z.lt_trichotomy b 0) as [Hn | [H0 | Hp]]; [right | lia | left].
    + pose proof (Z.mod_neg_bound a b Hn). lia.
    + pose proof (Z.mod_pos_bound a b Hp). lia.
Qed.

Lemma floordiv_zero (a : Z) : Py.floordiv a 0 = Raise ZeroDivisionError.
Proof. reflexivity. Qed.

Lemma floordiv_nonzero (a b : Z) : b <> 0 -> Py.floordiv a b = Ok (a / b).
Proof. unfold Py.floordiv. destruct (Z.eqb_spec b 0); [lia | reflexivity]. Qed.

End NumberFacts.

(** ** The state-and-exception monad *)

Section MonadFacts.
Context {W : Type}.

Lemma bind_ok {A B} (m : M W A) (k : A -> M W B) (w w' : W) (a : A) :
  m w = (Ok a, w') -> bind m k w = k a w'.
Proof. unfold bind. intros ->. reflexivity. Qed.

Lemma bind_raise {A B} (m : M W A) (k : A -> M W B) (w w' : W) (e : exn) :
  m w = (Raise e, w') -> bind m k w = (Raise e, w').
Proof. unfold bind. intros ->. reflexivity. Qed.

Lemma bind_lift_ok {A B} (a : A) (k : A -> M W B) (w : W) :
  bind (lift (Ok a)) k w = k a w.
Proof. reflexivity. Qed.

Lemma bind_lift_raise {A B} (e : exn) (k : A -> M W B) (w : W) :
  bind (lift (Raise e)) k w = (Raise e, w).
Proof. reflexivity. Qed.

Lemma bind_inv_ok {A B} (m : M W A) (k : A -> M W B) (w w' : W) (b : B) :
  bind m k w = (Ok b, w') ->
  exists a w1, m w = (Ok a, w1) /\ k a w1 = (Ok b, w').
Proof.
  unfold bind. destruct (m w) as [[a | e] w1]; intros H; [eauto | discriminate].
Qed.

Lemma bind_assoc {A B C} (m : M W A) (k : A -> M W B) (h : B -> M W C) (w : W) :
  bind (bind m k) h w = bind m (fun a => bind (k a) h) w.
Proof. unfold bind. destruct (m w) as [[a | e] w1]; reflexivity. Qed.

End MonadFacts.

(** ** The sub-batch sizes and the steps of an epoch *)

Lemma split_batch_size_sum (batch_size : Z) (rate : Py.float64) (rl rand : Z) :
  split_batch_size batch_size rate = Ok (rl, rand) -> rl + rand = batch_size.
Proof.
  unfold split_batch_size, result_bind.
  destruct (Py.int_mul_float batch_size rate); [| discriminate].
  destruct (Py.int_of_float a); [| discriminate].
  intros [= <- <-]. lia.
Qed.

(** C2. [train_dm] splits [batch_size] into the float product
    [batch_size * rl_batch_rate] truncated toward zero (the on-policy
    sub-size) and the remainder [batch_size - batch_size_rl] (the random
    sub-size), whenever the product is a finite float; 100 at rate 0.9
    gives 90 and 10, and 10 at rate 0.33 gives 3 and 7. *)
Theorem train_dm_batch_split :
  (forall (batch_size : Z) (rl_batch_rate x : Py.float64),
      Py.float_of_int batch_size = Ok x ->
      Py.is_finite (Py.float_mul x rl_batch_rate) = true ->
      exists batch_size_rl,
        split_batch_size batch_size rl_batch_rate
          = Ok (batch_size_rl, batch_size - batch_size_rl) /\
        Py.truncates (Py.value (Py.float_mul x rl_batch_rate)) batch_size_rl) /\
  split_batch_size 100 (Py.decimal 9 1) = Ok (90, 10) /\
  split_batch_size 10 (Py.decimal 33 2) = Ok (3, 7).
Proof.
  split; [| split; vm_compute; reflexivity].
  intros batch_size rate x Hx Hfin.
  apply int_of_float_finite in Hfin as [z Hz].
  exists z. split.
  - unfold split_batch_size, Py.int_mul_float, result_bind.
    rewrite Hx, Hz. reflexivity.
  - apply int_of_float_truncates. exact Hz.
Qed.

Lemma train_dm_batch_split_witness :
  exists batch_size_rl,
    split_batch_size 512 (Py.decimal 9 1) = Ok (batch_size_rl, 512 - batch_size_rl) /\
    Py.truncates
      (Py.value (Py.float_mul (S754_finite false 4503599627370496 (-43))
                              (Py.decimal 9 1)))
      batch_size_rl.
Proof.
  apply (proj1 train_dm_batch_split 512 (Py.decimal 9 1)
           (S754_finite false 4503599627370496 (-43))).
  - vm_compute. reflexivity.
  - vm_compute. reflexivity.
Defined.

(** ** Tensors *)

Section TensorFacts.

Lemma legacy_empty_rows (t : Tensor) : is_legacy_empty t = true -> rows t = [].
Proof.
  unfold is_legacy_empty. destruct (trailing t), (rows t); congruence.
Qed.

Lemma torch_cat_rows (a b c : Tensor) :
  torch_cat a b = Ok c -> rows c = rows a ++ rows b.
Proof.
  unfold torch_cat.
  destruct (is_legacy_empty a) eqn:Ha.
  { intros [= <-]. rewrite (legacy_empty_rows a Ha). reflexivity. }
  destruct (is_legacy_empty b) eqn:Hb.
  { intros [= <-]. rewrite (legacy_empty_rows b Hb), app_nil_r. reflexivity. }
  destruct (same_trailing a b); [| discriminate].
  intros [= <-]. reflexivity.
Qed.

Lemma torch_cat_n_samples (a b c : Tensor) :
  torch_cat a b = Ok c -> n_samples c = (n_samples a + n_samples b)%nat.
Proof.
  intros H. unfold n_samples. rewrite (torch_cat_rows a b c H).
  apply length_app.
Qed.

Lemma torch_cat_same_trailing (a b : Tensor) :
  trailing a = trailing b -> exists c, torch_cat a b = Ok c.
Proof.
  intros H. unfold torch_cat, same_trailing.
  destruct (is_legacy_empty a); [eauto |].
  destruct (is_legacy_empty b); [eauto |].
  rewrite bool_decide_eq_true_2 by exact H. eauto.
Qed.

Lemma torch_cat_no_samples_r (a b c : Tensor) :
  torch_cat a b = Ok c -> n_samples b = 0%nat -> n_samples a <> 0%nat -> c = a.
Proof.
  unfold torch_cat, n_samples. intros H Hb Ha.
  destruct (is_legacy_empty a) eqn:Ea.
  { apply legacy_empty_rows in Ea. rewrite Ea in Ha. done. }
  destruct (is_legacy_empty b); [congruence |].
  destruct (same_trailing a b); [| discriminate].
  injection H as <-. apply nil_length_inv in Hb. rewrite Hb, app_nil_r.
  destruct a; reflexivity.
Qed.

Lemma torch_cat_no_samples_l (a b c : Tensor) :
  torch_cat a b = Ok c -> n_samples a = 0%nat -> n_samples b <> 0%nat -> c = b.
Proof.
  unfold torch_cat, n_samples, same_trailing. intros H Ha Hb.
  destruct (is_legacy_empty a); [congruence |].
  destruct (is_legacy_empty b) eqn:Eb.
  { apply legacy_empty_rows in Eb. rewrite Eb in Hb. done. }
  case_bool_decide as Ht; [| discriminate].
  injection H as <-. apply nil_length_inv in Ha. rewrite Ha, Ht.
  destruct b; reflexivity.
Qed.

End TensorFacts.

(** ** The merged batch *)

Section MergeFacts.

Lemma getitem_ok (d : Batch) (key : string) (t : Tensor) :
  getitem d key = Ok t <-> d !! key = Some t.
Proof.
  unfold getitem. destruct (d !! key); split; congruence.
Qed.

Lemma elem_of_merged_fields (f : string) :
  f ∈ merged_fields <-> f = "obs" \/ f = "acs" \/ f = "next_obs".
Proof.
  unfold merged_fields. rewrite !elem_of_cons, elem_of_nil. tauto.
Qed.

Lemma three_fields_lookup (o a n : Tensor) (f : string) :
  (<["next_obs" := n]> (<["acs" := a]> (<["obs" := o]> (∅ : Batch)))) !! f =
  if bool_decide (f = "next_obs") then Some n
  else if bool_decide (f = "acs") then Some a
  else if bool_decide (f = "obs") then Some o
  else None.
Proof.
  repeat case_bool_decide; simplify_map_eq; reflexivity.
Qed.

Lemma three_fields_dom (o a n : Tensor) :
  dom (<["next_obs" := n]> (<["acs" := a]> (<["obs" := o]> (∅ : Batch))))
  = (list_to_set merged_fields : gset string).
Proof.
  rewrite !dom_insert_L, dom_empty_L. unfold merged_fields. set_solver.
Qed.

(** What a successful merge has done, branch by branch. *)
Lemma merge_batch_inv (rl_batch rand_batch batch : Batch) :
  merge_batch rl_batch rand_batch = Ok batch ->
  exists o a n : Tensor,
    batch = <["next_obs" := n]> (<["acs" := a]> (<["obs" := o]> ∅)) /\
    ((size rl_batch = 0%nat /\
      rand_batch !! "obs" = Some o /\ rand_batch !! "acs" = Some a /\
      rand_batch !! "next_obs" = Some n) \/
     (size rl_batch <> 0%nat /\ size rand_batch = 0%nat /\
      rl_batch !! "obs" = Some o /\ rl_batch !! "acs" = Some a /\
      rl_batch !! "next_obs" = Some n) \/
     (size rl_batch <> 0%nat /\ size rand_batch <> 0%nat /\
      exists ro lo ra la rn ln : Tensor,
        rand_batch !! "obs" = Some ro /\ rl_batch !! "obs" = Some lo /\
        torch_cat ro lo = Ok o /\
        rand_batch !! "acs" = Some ra /\ rl_batch !! "acs" = Some la /\
        torch_cat ra la = Ok a /\
        rand_batch !! "next_obs" = Some rn /\ rl_batch !! "next_obs" = Some ln /\
        torch_cat rn ln = Ok n)).
Proof.
  unfold merge_batch. cbv zeta. intros H.
  repeat case_bool_decide;
    repeat match type of H with
      | result_bind ?r _ = Ok _ =>
          let E := fresh "E" in
          destruct r eqn:E; simpl in H; [| discriminate]
      end;
    injection H; intros <-; clear H;
    repeat match goal with
      | E : getitem _ _ = Ok _ |- _ => apply getitem_ok in E
      end;
    do 3 eexists; (split; [reflexivity |]).
  - left. auto.
  - right; left. auto.
  - right; right. do 2 (split; [assumption |]). do 6 eexists. eauto 10.
Qed.

Lemma merge_batch_dom (rl_batch rand_batch batch : Batch) :
  merge_batch rl_batch rand_batch = Ok batch ->
  dom batch = (list_to_set merged_fields : gset string).
Proof.
  intros H. apply merge_batch_inv in H as (o & a & n & -> & _).
  apply three_fields_dom.
Qed.

(** In the third branch every field is the concatenation of the two
    sources' fields, the random one first. *)
Lemma merge_batch_cat_field (rl_batch rand_batch batch : Batch) (f : string) :
  size rl_batch <> 0%nat -> size rand_batch <> 0%nat ->
  merge_batch rl_batch rand_batch = Ok batch ->
  f ∈ merged_fields ->
  exists t_rand t_rl t : Tensor,
    rand_batch !! f = Some t_rand /\ rl_batch !! f = Some t_rl /\
    batch !! f = Some t /\ torch_cat t_rand t_rl = Ok t.
Proof.
  intros Hrl Hrand H Hf.
  apply merge_batch_inv in H as (o & a & n & -> & [H | [H | H]]);
    [tauto | tauto |].
  destruct H as (_ & _ & ro & lo & ra & la & rn & ln & H).
  destruct H as (? & ? & ? & ? & ? & ? & ? & ? & ?).
  apply elem_of_merged_fields in Hf as [-> | [-> | ->]];
    rewrite three_fields_lookup; simpl; eauto 10.
Qed.

(** In the first two branches every field is the other source's field. *)
Lemma merge_batch_copy_field (rl_batch rand_batch batch : Batch) (f : string) :
  merge_batch rl_batch rand_batch = Ok batch ->
  f ∈ merged_fields ->
  (size rl_batch = 0%nat -> batch !! f = rand_batch !! f) /\
  (size rl_batch <> 0%nat -> size rand_batch = 0%nat ->
   batch !! f = rl_batch !! f).
Proof.
  intros H Hf.
  apply merge_batch_inv in H as (o & a & n & -> & [H | [H | H]]).
  - destruct H as (? & ? & ? & ?). split; [intros _ | tauto].
    apply elem_of_merged_fields in Hf as [-> | [-> | ->]];
      rewrite three_fields_lookup; simpl; congruence.
  - destruct H as (? & ? & ? & ? & ?). split; [tauto | intros _ _].
    apply elem_of_merged_fields in Hf as [-> | [-> | ->]];
      rewrite three_fields_lookup; simpl; congruence.
  - destruct H as (? & ? & _). split; tauto.
Qed.

(** The merge succeeds when the fields it reads are there and, where it
    concatenates, agree on the dimensions after the first. *)
Lemma merge_batch_total (rl_batch rand_batch : Batch) :
  (size rl_batch = 0%nat \/ size rand_batch <> 0%nat ->
   forall f, f ∈ merged_fields -> is_Some (rand_batch !! f)) ->
  (size rl_batch <> 0%nat ->
   forall f, f ∈ merged_fields -> is_Some (rl_batch !! f)) ->
  (size rl_batch <> 0%nat -> size rand_batch <> 0%nat ->
   forall f t_rand t_rl, f ∈ merged_fields ->
     rand_batch !! f = Some t_rand -> rl_batch !! f = Some t_rl ->
     trailing t_rand = trailing t_rl) ->
  exists batch, merge_batch rl_batch rand_batch = Ok batch.
Proof.
  intros Hrand Hrl Hshape.
  assert (Hin : forall f, f = "obs" \/ f = "acs" \/ f = "next_obs" ->
                          f ∈ merged_fields)
    by (intros f; apply elem_of_merged_fields).
  unfold merge_batch, getitem. cbv zeta.
  case_bool_decide as H1; [| case_bool_decide as H2].
  - destruct (Hrand (or_introl H1) "obs") as [o ->]; [auto |].
    destruct (Hrand (or_introl H1) "acs") as [a ->]; [auto |].
    destruct (Hrand (or_introl H1) "next_obs") as [n ->]; [auto |].
    simpl. eauto.
  - destruct (Hrl H1 "obs") as [o ->]; [auto |].
    destruct (Hrl H1 "acs") as [a ->]; [auto |].
    destruct (Hrl H1 "next_obs") as [n ->]; [auto |].
    simpl. eauto.
  - destruct (Hrand (or_intror H2) "obs") as [ro Ero]; [auto |].
    destruct (Hrand (or_intror H2) "acs") as [ra Era]; [auto |].
    destruct (Hrand (or_intror H2) "next_obs") as [rn Ern]; [auto |].
    destruct (Hrl H1 "obs") as [lo Elo]; [auto |].
    destruct (Hrl H1 "acs") as [la Ela]; [auto |].
    destruct (Hrl H1 "next_obs") as [ln Eln]; [auto |].
    destruct (torch_cat_same_trailing ro lo) as [o Eo];
      [apply (Hshape H1 H2 "obs"); auto |].
    destruct (torch_cat_same_trailing ra la) as [a Ea];
      [apply (Hshape H1 H2 "acs"); auto |].
    destruct (torch_cat_same_trailing rn ln) as [n En];
      [apply (Hshape H1 H2 "next_obs"); auto |].
    rewrite Ero, Elo, Era, Ela, Ern, Eln. simpl.
    rewrite Eo. simpl. rewrite Ea. simpl. rewrite En. simpl. eauto.
Qed.

End MergeFacts.

Lemma batch_eq_on_fields (batch other : Batch) :
  dom batch = (list_to_set merged_fields : gset string) ->
  dom other = (list_to_set merged_fields : gset string) ->
  (forall f, f ∈ merged_fields -> batch !! f = other !! f) ->
  batch = other.
Proof.
  intros Hb Ho Heq. apply map_eq. intros k.
  destruct (decide (k ∈ merged_fields)) as [Hk | Hk]; [auto |].
  assert (Hn : k ∉ (list_to_set merged_fields : gset string))
    by (rewrite elem_of_list_to_set; exact Hk).
  rewrite (proj1 (not_elem_of_dom batch k)) by (rewrite Hb; exact Hn).
  rewrite (proj1 (not_elem_of_dom other k)) by (rewrite Ho; exact Hn).
  reflexivity.
Qed.

(** The two copying branches (lines 66-73) and, in the concatenating
    branch, the fields without samples. *)
Lemma merge_batch_copies (rl_batch rand_batch : Batch) :
  (size rl_batch = 0%nat ->
   (forall f, f ∈ merged_fields -> is_Some (rand_batch !! f)) ->
   exists batch,
     merge_batch rl_batch rand_batch = Ok batch /\
     (forall f, f ∈ merged_fields -> batch !! f = rand_batch !! f) /\
     (dom rand_batch = list_to_set merged_fields -> batch = rand_batch)) /\
  (size rand_batch = 0%nat -> size rl_batch <> 0%nat ->
   (forall f, f ∈ merged_fields -> is_Some (rl_batch !! f)) ->
   exists batch,
     merge_batch rl_batch rand_batch = Ok batch /\
     (forall f, f ∈ merged_fields -> batch !! f = rl_batch !! f) /\
     (dom rl_batch = list_to_set merged_fields -> batch = rl_batch)) /\
  (forall batch f t_rand t_rl,
     size rl_batch <> 0%nat -> size rand_batch <> 0%nat ->
     merge_batch rl_batch rand_batch = Ok batch ->
     f ∈ merged_fields ->
     rand_batch !! f = Some t_rand -> rl_batch !! f = Some t_rl ->
     (n_samples t_rl = 0%nat -> n_samples t_rand <> 0%nat ->
      batch !! f = Some t_rand) /\
     (n_samples t_rand = 0%nat -> n_samples t_rl <> 0%nat ->
      batch !! f = Some t_rl)).
Proof.
  split; [| split].
  - intros Hrl Hfields.
    destruct (merge_batch_total rl_batch rand_batch) as [batch Hm];
      [auto | tauto | tauto |].
    exists batch. split; [exact Hm |].
    assert (Heq : forall f, f ∈ merged_fields -> batch !! f = rand_batch !! f).
    { intros f Hf. apply (merge_batch_copy_field _ _ _ f Hm Hf). exact Hrl. }
    split; [exact Heq |]. intros Hdom.
    apply batch_eq_on_fields; eauto using merge_batch_dom.
  - intros Hrand Hrl Hfields.
    destruct (merge_batch_total rl_batch rand_batch) as [batch Hm];
      [intros [? | ?]; tauto | auto | tauto |].
    exists batch. split; [exact Hm |].
    assert (Heq : forall f, f ∈ merged_fields -> batch !! f = rl_batch !! f).
    { intros f Hf. apply (merge_batch_copy_field _ _ _ f Hm Hf); assumption. }
    split; [exact Heq |]. intros Hdom.
    apply batch_eq_on_fields; eauto using merge_batch_dom.
  - intros batch f t_rand t_rl Hrl Hrand Hm Hf Er El.
    destruct (merge_batch_cat_field _ _ _ f Hrl Hrand Hm Hf)
      as (a & b & c & Ea & Eb & Ec & Hcat).
    rewrite Er in Ea. rewrite El in Eb.
    injection Ea as <-. injection Eb as <-. rewrite Ec.
    split; intros H0 Hn; f_equal.
    + eapply torch_cat_no_samples_r; eauto.
    + eapply torch_cat_no_samples_l; eauto.
Qed.

Lemma toy_batch_fields (x : Py.float64) (n : nat) (f : string) :
  f ∈ merged_fields -> is_Some (Toy.batch x n !! f).
Proof.
  intros Hf. apply elem_of_merged_fields in Hf as [-> | [-> | ->]];
    unfold Toy.batch; simplify_map_eq; eauto.
Qed.

(** C5. When both batches are non-empty, every field of the merged batch
    has as many samples as the two input fields together; the merge
    succeeds when both batches hold the three fields with the same
    dimensions after the first. *)
Theorem merge_batch_samples_sum (rl_batch rand_batch : Batch) :
  size rl_batch <> 0%nat -> size rand_batch <> 0%nat ->
  (forall batch f,
     merge_batch rl_batch rand_batch = Ok batch ->
     f ∈ merged_fields ->
     exists t_rand t_rl t : Tensor,
       rand_batch !! f = Some t_rand /\ rl_batch !! f = Some t_rl /\
       batch !! f = Some t /\
       n_samples t = (n_samples t_rand + n_samples t_rl)%nat) /\
  ((forall f, f ∈ merged_fields ->
      exists t_rand t_rl : Tensor,
        rand_batch !! f = Some t_rand /\ rl_batch !! f = Some t_rl /\
        trailing t_rand = trailing t_rl) ->
   exists batch, merge_batch rl_batch rand_batch = Ok batch).
Proof.
  intros Hrl Hrand. split.
  - intros batch f Hm Hf.
    destruct (merge_batch_cat_field _ _ _ f Hrl Hrand Hm Hf)
      as (a & b & c & Ea & Eb & Ec & Hcat).
    exists a, b, c. repeat split; try assumption.
    apply torch_cat_n_samples. exact Hcat.
  - intros Hfields. apply merge_batch_total.
    + intros _ f Hf. destruct (Hfields f Hf) as (a & b & -> & _). eauto.
    + intros _ f Hf. destruct (Hfields f Hf) as (a & b & _ & -> & _). eauto.
    + intros _ _ f a b Hf Ea Eb.
      destruct (Hfields f Hf) as (a' & b' & Ea' & Eb' & Ht). congruence.
Qed.

(** C10. When both batches are non-empty, in every concatenated field the
    samples of the random source come first, in their order, and those of
    the on-policy source follow, in their order. *)
Theorem merge_batch_random_first (rl_batch rand_batch batch : Batch) (f : string) :
  size rl_batch <> 0%nat -> size rand_batch <> 0%nat ->
  merge_batch rl_batch rand_batch = Ok batch ->
  f ∈ merged_fields ->
  exists t_rand t_rl t : Tensor,
    rand_batch !! f = Some t_rand /\ rl_batch !! f = Some t_rl /\
    batch !! f = Some t /\
    rows t = rows t_rand ++ rows t_rl /\
    (forall i, (i < n_samples t_rand)%nat -> rows t !! i = rows t_rand !! i) /\
    (forall i, rows t !! (n_samples t_rand + i)%nat = rows t_rl !! i).
Proof.
  intros Hrl Hrand Hm Hf.
  destruct (merge_batch_cat_field _ _ _ f Hrl Hrand Hm Hf)
    as (a & b & c & Ea & Eb & Ec & Hcat).
  exists a, b, c. apply torch_cat_rows in Hcat.
  repeat split; try assumption.
  - intros i Hi. rewrite Hcat. apply lookup_app_l. exact Hi.
  - intros i. rewrite Hcat. unfold n_samples.
    rewrite lookup_app_r by lia. f_equal. lia.
Qed.

(** ** [update_dm] and [train_dm] *)

Section TrainingFacts.
Context {W Model Optimizer : Type}.
Variable lf_dynamics : Model -> Batch -> string -> bool -> M W ScalarTensor.
Variable zero_grad : Optimizer -> M W unit.
Variable backward : ScalarTensor -> M W unit.
Variable optim_step : Optimizer -> M W unit.
Variable logger_log : string -> M W unit.

Local Abbreviation update := (update_dm lf_dynamics zero_grad backward optim_step).
Local Abbreviation one_step := (train_step lf_dynamics zero_grad backward optim_step).
Local Abbreviation zip := (zip_loop lf_dynamics zero_grad backward optim_step).
Local Abbreviation epochs := (epoch_loop lf_dynamics zero_grad backward optim_step).
Local Abbreviation train :=
  (train_dm lf_dynamics zero_grad backward optim_step logger_log).

(** The conversion at the end of [update_dm] cannot fail: [detach] clears
    the gradient flag and [cpu] moves the value to the host. *)
Lemma numpy_cpu_detach (t : ScalarTensor) :
  numpy (cpu (detach t))
  = if numpy_supports (dtype t) then Ok (mkNdArray (item t) (dtype t))
    else Raise TypeError.
Proof. reflexivity. Qed.

Lemma update_dm_ok (dm : Model) (optim_dm : Optimizer) (batch : Batch)
    (target : string) (td : bool) (dm_loss : ScalarTensor) (w w1 w2 w3 w4 : W) :
  lf_dynamics dm batch target td w = (Ok dm_loss, w1) ->
  zero_grad optim_dm w1 = (Ok tt, w2) ->
  backward dm_loss w2 = (Ok tt, w3) ->
  optim_step optim_dm w3 = (Ok tt, w4) ->
  numpy_supports (dtype dm_loss) = true ->
  update dm optim_dm batch target td w
  = (Ok (PyNdarray (mkNdArray (item dm_loss) (dtype dm_loss))), w4).
Proof.
  intros H1 H2 H3 H4 Hd. unfold update_dm.
  rewrite (bind_ok _ _ _ _ _ H1), (bind_ok _ _ _ _ _ H2),
    (bind_ok _ _ _ _ _ H3), (bind_ok _ _ _ _ _ H4).
  rewrite numpy_cpu_detach, Hd. reflexivity.
Qed.

(** For a loss of an element type [numpy] lacks, the conversion raises
    after the optimizer has stepped. *)
Lemma update_dm_unsupported_dtype (dm : Model) (optim_dm : Optimizer)
    (batch : Batch) (target : string) (td : bool) (dm_loss : ScalarTensor)
    (w w1 w2 w3 w4 : W) :
  lf_dynamics dm batch target td w = (Ok dm_loss, w1) ->
  zero_grad optim_dm w1 = (Ok tt, w2) ->
  backward dm_loss w2 = (Ok tt, w3) ->
  optim_step optim_dm w3 = (Ok tt, w4) ->
  numpy_supports (dtype dm_loss) = false ->
  update dm optim_dm batch target td w = (Raise TypeError, w4).
Proof.
  intros H1 H2 H3 H4 Hd. unfold update_dm.
  rewrite (bind_ok _ _ _ _ _ H1), (bind_ok _ _ _ _ _ H2),
    (bind_ok _ _ _ _ _ H3), (bind_ok _ _ _ _ _ H4).
  rewrite numpy_cpu_detach, Hd. reflexivity.
Qed.

Lemma update_dm_inv (dm : Model) (optim_dm : Optimizer) (batch : Batch)
    (target : string) (td : bool) (v : PyObj) (w w' : W) :
  update dm optim_dm batch target td w = (Ok v, w') ->
  exists dm_loss w1 w2 w3,
    lf_dynamics dm batch target td w = (Ok dm_loss, w1) /\
    zero_grad optim_dm w1 = (Ok tt, w2) /\
    backward dm_loss w2 = (Ok tt, w3) /\
    optim_step optim_dm w3 = (Ok tt, w') /\
    numpy_supports (dtype dm_loss) = true /\
    v = PyNdarray (mkNdArray (item dm_loss) (dtype dm_loss)).
Proof.
  unfold update_dm. intros H.
  apply bind_inv_ok in H as (dm_loss & w1 & H1 & H).
  apply bind_inv_ok in H as ([] & w2 & H2 & H).
  apply bind_inv_ok in H as ([] & w3 & H3 & H).
  apply bind_inv_ok in H as ([] & w4 & H4 & H).
  rewrite numpy_cpu_detach in H.
  destruct (numpy_supports (dtype dm_loss)) eqn:Hd; [| discriminate].
  injection H as <- <-.
  exists dm_loss, w1, w2, w3. auto 10.
Qed.

Lemma update_dm_raises (dm : Model) (optim_dm : Optimizer) (batch : Batch)
    (target : string) (td : bool) (e : exn) (w w' : W) :
  (lf_dynamics dm batch target td w = (Raise e, w') ->
   update dm optim_dm batch target td w = (Raise e, w')) /\
  (forall dm_loss w1,
     lf_dynamics dm batch target td w = (Ok dm_loss, w1) ->
     zero_grad optim_dm w1 = (Raise e, w') ->
     update dm optim_dm batch target td w = (Raise e, w')) /\
  (forall dm_loss w1 w2,
     lf_dynamics dm batch target td w = (Ok dm_loss, w1) ->
     zero_grad optim_dm w1 = (Ok tt, w2) ->
     backward dm_loss w2 = (Raise e, w') ->
     update dm optim_dm batch target td w = (Raise e, w')) /\
  (forall dm_loss w1 w2 w3,
     lf_dynamics dm batch target td w = (Ok dm_loss, w1) ->
     zero_grad optim_dm w1 = (Ok tt, w2) ->
     backward dm_loss w2 = (Ok tt, w3) ->
     optim_step optim_dm w3 = (Raise e, w') ->
     update dm optim_dm batch target td w = (Raise e, w')).
Proof.
  unfold update_dm. repeat split.
  - intros H. apply bind_raise. exact H.
  - intros dm_loss w1 H1 H. rewrite (bind_ok _ _ _ _ _ H1).
    apply bind_raise. exact H.
  - intros dm_loss w1 w2 H1 H2 H.
    rewrite (bind_ok _ _ _ _ _ H1), (bind_ok _ _ _ _ _ H2).
    apply bind_raise. exact H.
  - intros dm_loss w1 w2 w3 H1 H2 H3 H.
    rewrite (bind_ok _ _ _ _ _ H1), (bind_ok _ _ _ _ _ H2),
      (bind_ok _ _ _ _ _ H3).
    apply bind_raise. exact H.
Qed.

(** *** The inner loop *)

Section LoopFacts.
Variables (dyn_model : Model) (optim_dm : Optimizer) (target : string) (td : bool).

Local Abbreviation zip' := (zip dyn_model optim_dm target td).
Local Abbreviation step' := (one_step dyn_model optim_dm target td).

Lemma train_step_merged (rl_batch rand_batch batch : Batch) (w : W) :
  merge_batch rl_batch rand_batch = Ok batch ->
  step' rl_batch rand_batch w = update dyn_model optim_dm batch target td w.
Proof. unfold train_step. intros ->. reflexivity. Qed.

Lemma train_step_merge_raises (rl_batch rand_batch : Batch) (e : exn) (w : W) :
  merge_batch rl_batch rand_batch = Raise e ->
  step' rl_batch rand_batch w = (Raise e, w).
Proof. unfold train_step. intros ->. reflexivity. Qed.

(** One full step of the loop appends its loss to the history. *)
Lemma zip_loop_cons (next_rl next_rand : M W Batch) (rl_gen rand_gen : list (M W Batch))
    (dm_losses : list PyObj) (rl_batch rand_batch : Batch) (dm_loss : PyObj)
    (w w1 w2 w3 : W) :
  next_rl w = (Ok rl_batch, w1) ->
  next_rand w1 = (Ok rand_batch, w2) ->
  step' rl_batch rand_batch w2 = (Ok dm_loss, w3) ->
  zip' (next_rl :: rl_gen) (next_rand :: rand_gen) dm_losses w
  = zip' rl_gen rand_gen (dm_losses ++ [dm_loss]) w3.
Proof.
  intros H1 H2 H3. simpl.
  rewrite (bind_ok _ _ _ _ _ H1), (bind_ok _ _ _ _ _ H2),
    (bind_ok _ _ _ _ _ H3).
  reflexivity.
Qed.

(** A failing step ends the loop with the step's exception. *)
Lemma zip_loop_cons_raises (next_rl next_rand : M W Batch)
    (rl_gen rand_gen : list (M W Batch)) (dm_losses : list PyObj)
    (rl_batch rand_batch : Batch) (e : exn) (w w1 w2 w3 : W) :
  next_rl w = (Ok rl_batch, w1) ->
  next_rand w1 = (Ok rand_batch, w2) ->
  step' rl_batch rand_batch w2 = (Raise e, w3) ->
  zip' (next_rl :: rl_gen) (next_rand :: rand_gen) dm_losses w = (Raise e, w3).
Proof.
  intros H1 H2 H3. simpl.
  rewrite (bind_ok _ _ _ _ _ H1), (bind_ok _ _ _ _ _ H2).
  apply bind_raise. exact H3.
Qed.

(** The loop over a pair of generators continues where the loop over their
    prefixes of equal length stopped. *)
Lemma zip_loop_app (rl1 rand1 rl2 rand2 : list (M W Batch)) :
  length rl1 = length rand1 ->
  forall (dm_losses : list PyObj) (w : W),
    zip' (rl1 ++ rl2) (rand1 ++ rand2) dm_losses w
    = bind (zip' rl1 rand1 dm_losses) (zip' rl2 rand2) w.
Proof.
  revert rand1. induction rl1 as [| next_rl rl1 IH]; intros [| next_rand rand1] Hlen;
    try discriminate; intros dm_losses w.
  - reflexivity.
  - injection Hlen as Hlen. simpl. unfold bind.
    destruct (next_rl w) as [[rl_batch | e] w1]; [| reflexivity].
    destruct (next_rand w1) as [[rand_batch | e] w2]; [| reflexivity].
    destruct (step' rl_batch rand_batch w2) as [[dm_loss | e] w3]; [| reflexivity].
    rewrite (IH _ Hlen). reflexivity.
Qed.

(** The history only grows: the loop returns the losses it was given
    followed by one loss for each pair of batches. *)
Lemma zip_loop_history (rl_gen rand_gen : list (M W Batch)) :
  forall (dm_losses result : list PyObj) (w w' : W),
    zip' rl_gen rand_gen dm_losses w = (Ok result, w') ->
    exists new,
      result = dm_losses ++ new /\
      length new = Nat.min (length rl_gen) (length rand_gen).
Proof.
  revert rand_gen.
  induction rl_gen as [| next_rl rl_gen IH]; intros rand_gen dm_losses result w w' H.
  - injection H as <- <-. exists []. rewrite app_nil_r. auto.
  - simpl in H. apply bind_inv_ok in H as (rl_batch & w1 & _ & H).
    destruct rand_gen as [| next_rand rand_gen].
    + injection H as <- <-. exists []. rewrite app_nil_r. auto.
    + apply bind_inv_ok in H as (rand_batch & w2 & _ & H).
      apply bind_inv_ok in H as (dm_loss & w3 & _ & H).
      apply IH in H as (new & -> & Hlen).
      exists (dm_loss :: new). rewrite <- app_assoc. simpl. auto.
Qed.

(** The loop computes the losses of the epoch, in their order, after the
    history it was given. *)
Lemma zip_loop_losses (rl_gen rand_gen : list (M W Batch)) :
  forall (dm_losses result : list PyObj) (w w' : W),
    zip' rl_gen rand_gen dm_losses w = (Ok result, w') ->
    exists new,
      result = dm_losses ++ new /\
      epoch_losses lf_dynamics zero_grad backward optim_step
                   dyn_model optim_dm target td rl_gen rand_gen w new w'.
Proof.
  revert rand_gen.
  induction rl_gen as [| next_rl rl_gen IH]; intros rand_gen dm_losses result w w' H.
  - injection H as <- <-. exists []. rewrite app_nil_r. split; [reflexivity |].
    constructor.
  - simpl in H. apply bind_inv_ok in H as (rl_batch & w1 & H1 & H).
    destruct rand_gen as [| next_rand rand_gen].
    + injection H as <- <-. exists []. rewrite app_nil_r. split; [reflexivity |].
      econstructor. exact H1.
    + apply bind_inv_ok in H as (rand_batch & w2 & H2 & H).
      apply bind_inv_ok in H as (dm_loss & w3 & H3 & H).
      apply IH in H as (new & -> & Hnew).
      exists (dm_loss :: new). rewrite <- app_assoc. split; [reflexivity |].
      econstructor; eassumption.
Qed.

(** Conversely the loop returns whenever the steps of the epoch succeed. *)
Lemma zip_loop_returns (rl_gen rand_gen : list (M W Batch))
    (new : list PyObj) (w w' : W) :
  epoch_losses lf_dynamics zero_grad backward optim_step
               dyn_model optim_dm target td rl_gen rand_gen w new w' ->
  forall dm_losses,
    zip' rl_gen rand_gen dm_losses w = (Ok (dm_losses ++ new), w').
Proof.
  induction 1 as [rand_gen w | next_rl rl_gen rl_batch w w1 H1
                 | next_rl rl_gen next_rand rand_gen rl_batch rand_batch dm_loss
                     losses w w1 w2 w3 w' H1 H2 H3 _ IH];
    intros dm_losses.
  - simpl. rewrite app_nil_r. reflexivity.
  - simpl. rewrite (bind_ok _ _ _ _ _ H1), app_nil_r. reflexivity.
  - rewrite (zip_loop_cons _ _ _ _ _ _ _ _ _ _ _ _ H1 H2 H3), IH, <- app_assoc.
    reflexivity.
Qed.

Lemma epoch_losses_length (rl_gen rand_gen : list (M W Batch))
    (new : list PyObj) (w w' : W) :
  epoch_losses lf_dynamics zero_grad backward optim_step
               dyn_model optim_dm target td rl_gen rand_gen w new w' ->
  length new = Nat.min (length rl_gen) (length rand_gen).
Proof.
  induction 1; simpl; auto.
Qed.

(** *** The outer loop *)

Variables (rl_traj rand_traj : Traj W) (batch_size_rl batch_size_rand step : Z).

Local Abbreviation epochs' :=
  (epochs dyn_model optim_dm target td rl_traj rand_traj
          batch_size_rl batch_size_rand step).
Local Abbreviation rl_gen := (random_batch rl_traj batch_size_rl step).
Local Abbreviation rand_gen := (random_batch rand_traj batch_size_rand step).

Lemma epoch_loop_add (n1 n2 : nat) :
  forall (dm_losses : list PyObj) (w : W),
    epochs' (n1 + n2)%nat dm_losses w
    = bind (epochs' n1 dm_losses) (epochs' n2) w.
Proof.
  induction n1 as [| n1 IH]; intros dm_losses w; [reflexivity |].
  simpl. unfold bind.
  destruct (zip' rl_gen rand_gen dm_losses w) as [[l | e] w1]; [| reflexivity].
  rewrite IH. reflexivity.
Qed.

Lemma epoch_loop_history (n : nat) :
  forall (dm_losses result : list PyObj) (w w' : W),
    epochs' n dm_losses w = (Ok result, w') ->
    exists new,
      result = dm_losses ++ new /\
      length new = (n * Nat.min (length rl_gen) (length rand_gen))%nat.
Proof.
  induction n as [| n IH]; intros dm_losses result w w' H.
  - injection H as <- <-. exists []. rewrite app_nil_r. auto.
  - simpl in H. apply bind_inv_ok in H as (l & w1 & Hz & H).
    apply zip_loop_history in Hz as (new1 & -> & Hlen1).
    apply IH in H as (new2 & -> & Hlen2).
    exists (new1 ++ new2). rewrite <- app_assoc. split; [reflexivity |].
    rewrite length_app, Hlen1, Hlen2. simpl. lia.
Qed.

Lemma epoch_loop_losses (n : nat) :
  forall (dm_losses result : list PyObj) (w w' : W),
    epochs' n dm_losses w = (Ok result, w') ->
    exists new,
      result = dm_losses ++ new /\
      run_losses lf_dynamics zero_grad backward optim_step
                 dyn_model optim_dm target td rl_traj rand_traj
                 batch_size_rl batch_size_rand step n w new w'.
Proof.
  induction n as [| n IH]; intros dm_losses result w w' H.
  - injection H as <- <-. exists []. rewrite app_nil_r. split; [reflexivity |].
    constructor.
  - simpl in H. apply bind_inv_ok in H as (l & w1 & Hz & H).
    apply zip_loop_losses in Hz as (new1 & -> & H1).
    apply IH in H as (new2 & -> & H2).
    exists (new1 ++ new2). rewrite <- app_assoc. split; [reflexivity |].
    econstructor; eassumption.
Qed.

Lemma epoch_loop_returns (n : nat) (new : list PyObj) (w w' : W) :
  run_losses lf_dynamics zero_grad backward optim_step
             dyn_model optim_dm target td rl_traj rand_traj
             batch_size_rl batch_size_rand step n w new w' ->
  forall dm_losses, epochs' n dm_losses w = (Ok (dm_losses ++ new), w').
Proof.
  induction 1 as [w | n first rest w w1 w' Hfirst _ IH]; intros dm_losses.
  - simpl. rewrite app_nil_r. reflexivity.
  - simpl. rewrite (bind_ok _ _ _ _ _ (zip_loop_returns _ _ _ _ _ Hfirst _)).
    rewrite IH, <- app_assoc. reflexivity.
Qed.

End LoopFacts.

(** *** [train_dm] *)

(** [train_dm] once its sub-batch sizes and its number of steps are known. *)
Lemma train_dm_unfold (rl_traj rand_traj : Traj W) (dyn_model : Model)
    (optim_dm : Optimizer) (epoch batch_size : Z) (rl_batch_rate : Py.float64)
    (target : string) (td : bool)
    (batch_size_rl batch_size_rand step : Z) (w w0 : W) :
  split_batch_size batch_size rl_batch_rate = Ok (batch_size_rl, batch_size_rand) ->
  logger_log "Optimizing..." w = (Ok tt, w0) ->
  steps_per_epoch rl_traj rand_traj batch_size_rl batch_size_rand = Ok step ->
  train rl_traj rand_traj dyn_model optim_dm epoch batch_size rl_batch_rate
        target td w
  = (do dm_losses <-
        epochs dyn_model optim_dm target td rl_traj rand_traj
               batch_size_rl batch_size_rand step (Z.to_nat epoch) [] ;
     run logger_log "Optimization finished!" ;
     ret {[ "DynModelLoss" := dm_losses ]})%monad w0.
Proof.
  intros Hsplit Hlog Hstep. unfold train_dm.
  rewrite Hsplit, bind_lift_ok. simpl fst. simpl snd.
  rewrite (bind_ok _ _ _ _ _ Hlog), Hstep, bind_lift_ok.
  reflexivity.
Qed.

(** What a returning run of [train_dm] has done. *)
Lemma train_dm_inv (rl_traj rand_traj : Traj W) (dyn_model : Model)
    (optim_dm : Optimizer) (epoch batch_size : Z) (rl_batch_rate : Py.float64)
    (target : string) (td : bool) (result_dict : gmap string (list PyObj))
    (w w' : W) :
  train rl_traj rand_traj dyn_model optim_dm epoch batch_size rl_batch_rate
        target td w = (Ok result_dict, w') ->
  exists batch_size_rl batch_size_rand step dm_losses w0 w1,
    split_batch_size batch_size rl_batch_rate
      = Ok (batch_size_rl, batch_size_rand) /\
    logger_log "Optimizing..." w = (Ok tt, w0) /\
    steps_per_epoch rl_traj rand_traj batch_size_rl batch_size_rand = Ok step /\
    epochs dyn_model optim_dm target td rl_traj rand_traj
           batch_size_rl batch_size_rand step (Z.to_nat epoch) [] w0
      = (Ok dm_losses, w1) /\
    logger_log "Optimization finished!" w1 = (Ok tt, w') /\
    result_dict = {[ "DynModelLoss" := dm_losses ]}.
Proof.
  unfold train_dm. intros H.
  apply bind_inv_ok in H as ([batch_size_rl batch_size_rand] & w0 & Hsplit & H).
  unfold lift in Hsplit. injection Hsplit as Hsplit <-.
  apply bind_inv_ok in H as ([] & w1 & Hlog & H).
  apply bind_inv_ok in H as (step & w2 & Hstep & H).
  unfold lift in Hstep. injection Hstep as Hstep <-.
  apply bind_inv_ok in H as (dm_losses & w3 & Hloop & H).
  apply bind_inv_ok in H as ([] & w4 & Hlog' & H).
  injection H as <- <-.
  exists batch_size_rl, batch_size_rand, step, dm_losses, w1, w3. auto 10.
Qed.

(** C1. The number of steps of an epoch is the step count of the random
    source floor-divided by the random sub-size when that sub-size is
    positive, and the step count of the on-policy source floor-divided by
    the on-policy sub-size otherwise; [train_dm] runs every epoch with this
    number. *)
Theorem train_dm_steps_per_epoch (rl_traj rand_traj : Traj W)
    (batch_size_rl batch_size_rand : Z) :
  (0 < batch_size_rand ->
   exists step,
     steps_per_epoch rl_traj rand_traj batch_size_rl batch_size_rand = Ok step /\
     step = num_step rand_traj / batch_size_rand /\
     step * batch_size_rand <= num_step rand_traj < (step + 1) * batch_size_rand) /\
  (batch_size_rand <= 0 -> batch_size_rl <> 0 ->
   exists step r,
     steps_per_epoch rl_traj rand_traj batch_size_rl batch_size_rand = Ok step /\
     step = num_step rl_traj / batch_size_rl /\
     num_step rl_traj = step * batch_size_rl + r /\
     (0 <= r < batch_size_rl \/ batch_size_rl < r <= 0)) /\
  (forall dyn_model optim_dm epoch batch_size rl_batch_rate target td step w w0,
     split_batch_size batch_size rl_batch_rate
       = Ok (batch_size_rl, batch_size_rand) ->
     logger_log "Optimizing..." w = (Ok tt, w0) ->
     steps_per_epoch rl_traj rand_traj batch_size_rl batch_size_rand = Ok step ->
     train rl_traj rand_traj dyn_model optim_dm epoch batch_size rl_batch_rate
           target td w
     = (do dm_losses <-
           epochs dyn_model optim_dm target td rl_traj rand_traj
                  batch_size_rl batch_size_rand step (Z.to_nat epoch) [] ;
        run logger_log "Optimization finished!" ;
        ret {[ "DynModelLoss" := dm_losses ]})%monad w0).
Proof.
  unfold steps_per_epoch. split; [| split].
  - intros Hpos. rewrite (proj2 (Z.ltb_lt _ _) Hpos).
    rewrite floordiv_nonzero by lia.
    exists (num_step rand_traj / batch_size_rand).
    split; [reflexivity | split; [reflexivity |]].
    pose proof (Z.mul_div_le (num_step rand_traj) _ Hpos).
    pose proof (Z.mul_succ_div_gt (num_step rand_traj) _ Hpos).
    lia.
  - intros Hneg Hrl. rewrite (proj2 (Z.ltb_ge _ _) Hneg).
    destruct (floordiv_floor (num_step rl_traj) batch_size_rl
                (num_step rl_traj / batch_size_rl)
                (floordiv_nonzero _ _ Hrl)) as (_ & r & Hr & Hbound).
    rewrite floordiv_nonzero by exact Hrl.
    exists (num_step rl_traj / batch_size_rl), r. auto.
  - intros. eapply train_dm_unfold; eassumption.
Qed.

(** C8. When both sub-batch sizes are zero the step count is a division by
    zero: [train_dm] raises and returns no result, and the exception is
    [ZeroDivisionError] once the first log call has returned. *)
Theorem train_dm_zero_sizes_fails (rl_traj rand_traj : Traj W) (dyn_model : Model)
    (optim_dm : Optimizer) (epoch batch_size : Z) (rl_batch_rate : Py.float64)
    (target : string) (td : bool) (w : W) :
  split_batch_size batch_size rl_batch_rate = Ok (0, 0) ->
  steps_per_epoch rl_traj rand_traj 0 0 = Raise ZeroDivisionError /\
  (exists e w',
     train rl_traj rand_traj dyn_model optim_dm epoch batch_size rl_batch_rate
           target td w = (Raise e, w')) /\
  (forall w0,
     logger_log "Optimizing..." w = (Ok tt, w0) ->
     train rl_traj rand_traj dyn_model optim_dm epoch batch_size rl_batch_rate
           target td w = (Raise ZeroDivisionError, w0)).
Proof.
  intros Hsplit. split; [reflexivity |].
  unfold train_dm. rewrite Hsplit, bind_lift_ok. simpl fst. simpl snd.
  split.
  - unfold bind at 1.
    destruct (logger_log "Optimizing..." w) as [[[] | e] w0]; eauto.
  - intros w0 Hlog. rewrite (bind_ok _ _ _ _ _ Hlog). reflexivity.
Qed.

Lemma train_dm_history_length (rl_traj rand_traj : Traj W) (dyn_model : Model)
    (optim_dm : Optimizer) (epoch batch_size : Z) (rl_batch_rate : Py.float64)
    (target : string) (td : bool) (result_dict : gmap string (list PyObj))
    (w w' : W) :
  train rl_traj rand_traj dyn_model optim_dm epoch batch_size rl_batch_rate
        target td w = (Ok result_dict, w') ->
  exists batch_size_rl batch_size_rand step dm_losses,
    split_batch_size batch_size rl_batch_rate
      = Ok (batch_size_rl, batch_size_rand) /\
    steps_per_epoch rl_traj rand_traj batch_size_rl batch_size_rand = Ok step /\
    result_dict = {[ "DynModelLoss" := dm_losses ]} /\
    length dm_losses
    = (Z.to_nat epoch *
       Nat.min (length (random_batch rl_traj batch_size_rl step))
               (length (random_batch rand_traj batch_size_rand step)))%nat.
Proof.
  intros H.
  apply train_dm_inv in H
    as (bs_rl & bs_rand & step & dm_losses & w0 & w1 & Hsplit & _ & Hstep
        & Hloop & _ & ->).
  apply epoch_loop_history in Hloop as (new & -> & Hlen).
  exists bs_rl, bs_rand, step, new. auto.
Qed.

(** C3. When each generator yields exactly the computed number of steps,
    the mapping [train_dm] returns has the single key [DynModelLoss]; the
    list under it holds the losses of the steps, epoch after epoch and step
    after step, and has [epoch] times steps-per-epoch elements, the two
    counts multiplied as natural numbers ([range(epoch)] is empty for a
    negative [epoch]). With 1000 random steps, batch size 512, rate 0.9 and
    2 epochs there are 19 steps in an epoch and 38 losses. *)
Theorem train_dm_loss_history (rl_traj rand_traj : Traj W) (dyn_model : Model)
    (optim_dm : Optimizer) (epoch batch_size : Z) (rl_batch_rate : Py.float64)
    (target : string) (td : bool)
    (batch_size_rl batch_size_rand step : Z)
    (result_dict : gmap string (list PyObj)) (w w' : W) :
  train rl_traj rand_traj dyn_model optim_dm epoch batch_size rl_batch_rate
        target td w = (Ok result_dict, w') ->
  split_batch_size batch_size rl_batch_rate = Ok (batch_size_rl, batch_size_rand) ->
  steps_per_epoch rl_traj rand_traj batch_size_rl batch_size_rand = Ok step ->
  Z.of_nat (length (random_batch rl_traj batch_size_rl step)) = step ->
  Z.of_nat (length (random_batch rand_traj batch_size_rand step)) = step ->
  exists dm_losses,
    result_dict = {[ "DynModelLoss" := dm_losses ]} /\
    dom result_dict = ({[ "DynModelLoss" ]} : gset string) /\
    length dm_losses = (Z.to_nat epoch * Z.to_nat step)%nat /\
    (0 <= epoch -> Z.of_nat (length dm_losses) = epoch * step) /\
    (exists w0 w1,
       logger_log "Optimizing..." w = (Ok tt, w0) /\
       run_losses lf_dynamics zero_grad backward optim_step
                  dyn_model optim_dm target td rl_traj rand_traj
                  batch_size_rl batch_size_rand step
                  (Z.to_nat epoch) w0 dm_losses w1) /\
    (num_step rand_traj = 1000 -> num_step rl_traj = 100 ->
     batch_size = 512 -> rl_batch_rate = Py.decimal 9 1 -> epoch = 2 ->
     batch_size_rl = 460 /\ batch_size_rand = 52 /\ step = 19 /\
     length dm_losses = 38%nat).
Proof.
  intros Hrun Hsplit Hstep Hrl Hrand.
  apply train_dm_inv in Hrun
    as (bs_rl & bs_rand & step' & dm_losses & w0 & w1
        & Hsplit' & Hlog & Hstep' & Hloop & _ & ->).
  rewrite Hsplit in Hsplit'. injection Hsplit' as <- <-.
  rewrite Hstep in Hstep'. injection Hstep' as <-.
  destruct (epoch_loop_history _ _ _ _ _ _ _ _ _ _ _ _ _ _ Hloop)
    as (new & E & Hlen).
  simpl in E. subst new.
  destruct (epoch_loop_losses _ _ _ _ _ _ _ _ _ _ _ _ _ _ Hloop)
    as (new & E & Htrace).
  simpl in E. subst new.
  exists dm_losses. split; [reflexivity |].
  split; [apply dom_singleton_L |].
  assert (Htotal : length dm_losses = (Z.to_nat epoch * Z.to_nat step)%nat).
  { rewrite Hlen. f_equal. lia. }
  split; [exact Htotal |].
  split; [intros Hepoch; nia |].
  split; [exists w0, w1; auto |].
  intros Hn _ -> -> ->.
  assert (Hs : split_batch_size 512 (Py.decimal 9 1) = Ok (460, 52))
    by (vm_compute; reflexivity).
  rewrite Hs in Hsplit. injection Hsplit as <- <-.
  unfold steps_per_epoch in Hstep. simpl in Hstep. rewrite Hn in Hstep.
  injection Hstep as <-.
  repeat split; try reflexivity. rewrite Htotal. reflexivity.
Qed.

(** [train_dm] returns as soon as the sizes and the step count are defined,
    both log calls return and every step of every epoch succeeds. *)
Lemma train_dm_returns (rl_traj rand_traj : Traj W) (dyn_model : Model)
    (optim_dm : Optimizer) (epoch batch_size : Z) (rl_batch_rate : Py.float64)
    (target : string) (td : bool)
    (batch_size_rl batch_size_rand step : Z) (dm_losses : list PyObj)
    (w w0 w1 w' : W) :
  split_batch_size batch_size rl_batch_rate = Ok (batch_size_rl, batch_size_rand) ->
  logger_log "Optimizing..." w = (Ok tt, w0) ->
  steps_per_epoch rl_traj rand_traj batch_size_rl batch_size_rand = Ok step ->
  run_losses lf_dynamics zero_grad backward optim_step
             dyn_model optim_dm target td rl_traj rand_traj
             batch_size_rl batch_size_rand step (Z.to_nat epoch) w0 dm_losses w1 ->
  logger_log "Optimization finished!" w1 = (Ok tt, w') ->
  train rl_traj rand_traj dyn_model optim_dm epoch batch_size rl_batch_rate
        target td w = (Ok {[ "DynModelLoss" := dm_losses ]}, w').
Proof.
  intros Hsplit Hlog Hstep Hrun Hlog'.
  rewrite (train_dm_unfold _ _ _ _ _ _ _ _ _ _ _ _ _ _ Hsplit Hlog Hstep).
  rewrite (bind_ok _ _ _ _ _ (epoch_loop_returns _ _ _ _ _ _ _ _ _ _ _ _ _ Hrun [])).
  rewrite (bind_ok _ _ _ _ _ Hlog'). reflexivity.
Qed.

(** C4 (as the code has it). When the batch drawn from one source is
    empty, each of [obs], [acs] and [next_obs] of the batch handed to
    [update_dm] is the other source's tensor, unchanged; no other field of
    the other source's batch is carried over, so the merged batch is that
    batch itself exactly when [obs], [acs] and [next_obs] are all its
    fields. This holds for an empty [dict] (the two copying branches) and,
    field by field, in the concatenating branch for fields without
    samples. *)
Theorem train_dm_pass_through (dyn_model : Model) (optim_dm : Optimizer)
    (target : string) (td : bool) (rl_batch rand_batch : Batch) (w : W) :
  (size rl_batch = 0%nat ->
   (forall f, f ∈ merged_fields -> is_Some (rand_batch !! f)) ->
   exists batch,
     merge_batch rl_batch rand_batch = Ok batch /\
     one_step dyn_model optim_dm target td rl_batch rand_batch w
     = update dyn_model optim_dm batch target td w /\
     (forall f, f ∈ merged_fields -> batch !! f = rand_batch !! f) /\
     (forall f, f ∉ merged_fields -> batch !! f = None) /\
     (batch = rand_batch <-> dom rand_batch = list_to_set merged_fields)) /\
  (size rand_batch = 0%nat -> size rl_batch <> 0%nat ->
   (forall f, f ∈ merged_fields -> is_Some (rl_batch !! f)) ->
   exists batch,
     merge_batch rl_batch rand_batch = Ok batch /\
     one_step dyn_model optim_dm target td rl_batch rand_batch w
     = update dyn_model optim_dm batch target td w /\
     (forall f, f ∈ merged_fields -> batch !! f = rl_batch !! f) /\
     (forall f, f ∉ merged_fields -> batch !! f = None) /\
     (batch = rl_batch <-> dom rl_batch = list_to_set merged_fields)) /\
  (forall batch f t_rand t_rl,
     size rl_batch <> 0%nat -> size rand_batch <> 0%nat ->
     merge_batch rl_batch rand_batch = Ok batch ->
     f ∈ merged_fields ->
     rand_batch !! f = Some t_rand -> rl_batch !! f = Some t_rl ->
     (n_samples t_rl = 0%nat -> n_samples t_rand <> 0%nat ->
      batch !! f = Some t_rand) /\
     (n_samples t_rand = 0%nat -> n_samples t_rl <> 0%nat ->
      batch !! f = Some t_rl)).
Proof.
  destruct (merge_batch_copies rl_batch rand_batch) as (Hrl & Hrand & Hcat).
  assert (Hout : forall batch, merge_batch rl_batch rand_batch = Ok batch ->
                 forall f, f ∉ merged_fields -> batch !! f = None).
  { intros batch Hm f Hf. apply not_elem_of_dom.
    rewrite (merge_batch_dom _ _ _ Hm), elem_of_list_to_set. exact Hf. }
  split; [| split; [| exact Hcat]].
  - intros H0 Hfields.
    destruct (Hrl H0 Hfields) as (batch & Hm & Heq & Hdom).
    exists batch. split; [exact Hm |].
    split; [apply train_step_merged; exact Hm |].
    split; [exact Heq |]. split; [apply Hout; exact Hm |].
    split; [intros <-; eapply merge_batch_dom; exact Hm | exact Hdom].
  - intros H0 Hne Hfields.
    destruct (Hrand H0 Hne Hfields) as (batch & Hm & Heq & Hdom).
    exists batch. split; [exact Hm |].
    split; [apply train_step_merged; exact Hm |].
    split; [exact Heq |]. split; [apply Hout; exact Hm |].
    split; [intros <-; eapply merge_batch_dom; exact Hm | exact Hdom].
Qed.

(** C6 (as the code has it). Whenever [update_dm] returns, its value is
    the value of the loss tensor, whatever the tensor's device and gradient
    flag, as a zero-dimensional [numpy.ndarray] of the tensor's element
    type: a host value without gradient or device field, of run-time type
    [numpy.ndarray] and not [float]. The tensor converted is detached from
    the graph and in host memory; the call returns when the four operations
    succeed and [numpy] has the element type of the loss, and for an
    element type it lacks ([bfloat16]) the conversion raises [TypeError]
    after the optimizer has stepped. *)
Theorem update_dm_returns_host_array (dm : Model) (optim_dm : Optimizer)
    (batch : Batch) (target : string) (td : bool) (w : W) :
  (forall dm_loss w1 w2 w3 w4,
     lf_dynamics dm batch target td w = (Ok dm_loss, w1) ->
     zero_grad optim_dm w1 = (Ok tt, w2) ->
     backward dm_loss w2 = (Ok tt, w3) ->
     optim_step optim_dm w3 = (Ok tt, w4) ->
     (numpy_supports (dtype dm_loss) = true ->
      update dm optim_dm batch target td w
      = (Ok (PyNdarray (mkNdArray (item dm_loss) (dtype dm_loss))), w4)) /\
     (numpy_supports (dtype dm_loss) = false ->
      update dm optim_dm batch target td w = (Raise TypeError, w4))) /\
  (forall v w',
     update dm optim_dm batch target td w = (Ok v, w') ->
     exists dm_loss w1,
       lf_dynamics dm batch target td w = (Ok dm_loss, w1) /\
       numpy_supports (dtype dm_loss) = true /\
       v = PyNdarray (mkNdArray (item dm_loss) (dtype dm_loss)) /\
       type_name v = "numpy.ndarray") /\
  (forall dm_loss,
     item (cpu (detach dm_loss)) = item dm_loss /\
     dtype (cpu (detach dm_loss)) = dtype dm_loss /\
     device (cpu (detach dm_loss)) = Cpu /\
     requires_grad (cpu (detach dm_loss)) = false /\
     grad_fn (cpu (detach dm_loss)) = None /\
     numpy (cpu (detach dm_loss))
     = if numpy_supports (dtype dm_loss)
       then Ok (mkNdArray (item dm_loss) (dtype dm_loss))
       else Raise TypeError).
Proof.
  split; [| split].
  - intros dm_loss w1 w2 w3 w4 H1 H2 H3 H4. split; intros Hd.
    + eapply update_dm_ok; eassumption.
    + eapply update_dm_unsupported_dtype; eassumption.
  - intros v w' H.
    apply update_dm_inv in H
      as (dm_loss & w1 & w2 & w3 & H1 & _ & _ & _ & Hd & ->).
    exists dm_loss, w1. auto.
  - intros dm_loss. repeat split.
Qed.

(** C7. Neither function catches an exception. An exception of the loss
    functional, of [zero_grad], of the backward pass or of the optimizer
    step is the outcome of [update_dm]; and when, in any epoch and at any
    step, [update_dm] raises, [train_dm] ends at once with that same
    exception and returns no result. *)
Theorem train_dm_propagates_failure :
  (forall dm optim_dm batch target td e w w',
     (lf_dynamics dm batch target td w = (Raise e, w') ->
      update dm optim_dm batch target td w = (Raise e, w')) /\
     (forall dm_loss w1,
        lf_dynamics dm batch target td w = (Ok dm_loss, w1) ->
        zero_grad optim_dm w1 = (Raise e, w') ->
        update dm optim_dm batch target td w = (Raise e, w')) /\
     (forall dm_loss w1 w2,
        lf_dynamics dm batch target td w = (Ok dm_loss, w1) ->
        zero_grad optim_dm w1 = (Ok tt, w2) ->
        backward dm_loss w2 = (Raise e, w') ->
        update dm optim_dm batch target td w = (Raise e, w')) /\
     (forall dm_loss w1 w2 w3,
        lf_dynamics dm batch target td w = (Ok dm_loss, w1) ->
        zero_grad optim_dm w1 = (Ok tt, w2) ->
        backward dm_loss w2 = (Ok tt, w3) ->
        optim_step optim_dm w3 = (Raise e, w') ->
        update dm optim_dm batch target td w = (Raise e, w'))) /\
  (forall (rl_traj rand_traj : Traj W) dyn_model optim_dm epoch batch_size
          rl_batch_rate target td batch_size_rl batch_size_rand step
          (epochs_done : nat) (rl_done rl_rest rand_done rand_rest : list (M W Batch))
          (next_rl next_rand : M W Batch) (losses losses' : list PyObj)
          (rl_batch rand_batch batch : Batch) (e : exn) (w w0 w1 w2 w3 w4 w5 : W),
     split_batch_size batch_size rl_batch_rate
       = Ok (batch_size_rl, batch_size_rand) ->
     logger_log "Optimizing..." w = (Ok tt, w0) ->
     steps_per_epoch rl_traj rand_traj batch_size_rl batch_size_rand = Ok step ->
     (epochs_done < Z.to_nat epoch)%nat ->
     epochs dyn_model optim_dm target td rl_traj rand_traj
            batch_size_rl batch_size_rand step epochs_done [] w0
       = (Ok losses, w1) ->
     random_batch rl_traj batch_size_rl step = rl_done ++ next_rl :: rl_rest ->
     random_batch rand_traj batch_size_rand step
       = rand_done ++ next_rand :: rand_rest ->
     length rl_done = length rand_done ->
     zip dyn_model optim_dm target td rl_done rand_done losses w1
       = (Ok losses', w2) ->
     next_rl w2 = (Ok rl_batch, w3) ->
     next_rand w3 = (Ok rand_batch, w4) ->
     merge_batch rl_batch rand_batch = Ok batch ->
     update dyn_model optim_dm batch target td w4 = (Raise e, w5) ->
     train rl_traj rand_traj dyn_model optim_dm epoch batch_size rl_batch_rate
           target td w = (Raise e, w5)).
Proof.
  split.
  - intros dm optim_dm batch target td e w w'.
    apply update_dm_raises.
  - intros rl_traj rand_traj dyn_model optim_dm epoch batch_size rate target td
      bs_rl bs_rand step epochs_done rl_done rl_rest rand_done rand_rest
      next_rl next_rand losses losses' rl_batch rand_batch batch e
      w w0 w1 w2 w3 w4 w5
      Hsplit Hlog Hstep Hlt Hepochs Hrl Hrand Hlen Hzip Hnext_rl Hnext_rand
      Hmerge Hupdate.
    rewrite (train_dm_unfold _ _ _ _ _ _ _ _ _ _ _ _ _ _ Hsplit Hlog Hstep).
    apply bind_raise.
    replace (Z.to_nat epoch)
      with (epochs_done + S (Z.to_nat epoch - epochs_done - 1))%nat by lia.
    rewrite epoch_loop_add, (bind_ok _ _ _ _ _ Hepochs).
    simpl. apply bind_raise.
    rewrite Hrl, Hrand, (zip_loop_app _ _ _ _ _ _ _ _ Hlen),
      (bind_ok _ _ _ _ _ Hzip).
    eapply zip_loop_cons_raises; [eassumption .. |].
    rewrite (train_step_merged _ _ _ _ _ _ _ _ Hmerge). exact Hupdate.
Qed.

(** C9. Whichever branch builds it and whatever the target, the batch
    handed to [update_dm] has exactly the keys [obs], [acs] and [next_obs];
    it has no [rews] field, also when the target is ["rews"]. When no batch
    can be built, [update_dm] is not called. *)
Theorem train_step_batch_keys (dyn_model : Model) (optim_dm : Optimizer)
    (target : string) (td : bool) (rl_batch rand_batch : Batch) (w : W) :
  (forall batch,
     merge_batch rl_batch rand_batch = Ok batch ->
     dom batch = ({[ "obs"; "acs"; "next_obs" ]} : gset string) /\
     batch !! "rews" = None /\
     one_step dyn_model optim_dm target td rl_batch rand_batch w
     = update dyn_model optim_dm batch target td w /\
     one_step dyn_model optim_dm "rews" td rl_batch rand_batch w
     = update dyn_model optim_dm batch "rews" td w) /\
  (forall e,
     merge_batch rl_batch rand_batch = Raise e ->
     one_step dyn_model optim_dm target td rl_batch rand_batch w = (Raise e, w)).
Proof.
  split.
  - intros batch Hm.
    assert (Hdom : dom batch = ({[ "obs"; "acs"; "next_obs" ]} : gset string)).
    { rewrite (merge_batch_dom _ _ _ Hm). unfold merged_fields. simpl.
      rewrite (right_id_L ∅ (∪)), (assoc_L (∪)). reflexivity. }
    split; [exact Hdom |]. split.
    + apply not_elem_of_dom. rewrite Hdom.
      rewrite !elem_of_union, !elem_of_singleton.
      intros [[H | H] | H]; discriminate.
    + split; apply train_step_merged; exact Hm.
  - intros e Hm. apply train_step_merge_raises. exact Hm.
Qed.

End TrainingFacts.

(** ** Runs in the small world *)

Example toy_run_length :
  exists dm_losses,
    Toy.train_dm None Toy.rl_traj Toy.rand_traj tt tt 2 512 (Py.decimal 9 1)
                 "next_obs" true 0%nat
    = (Ok {[ "DynModelLoss" := dm_losses ]}, 38%nat) /\
    length dm_losses = 38%nat.
Proof.
  exists (replicate 38 (PyNdarray (mkNdArray (Toy.of_nat 512) Float32))).
  split; vm_compute; reflexivity.
Qed.

Example toy_run_fails_at_fourth_step :
  Toy.train_dm (Some 3%nat) Toy.rl_traj Toy.rand_traj tt tt 2 512
               (Py.decimal 9 1) "next_obs" true 0%nat
  = (Raise (ExternalError "loss is not finite"), 3%nat).
Proof. vm_compute. reflexivity. Qed.

Example toy_run_rews_target :
  Toy.train_dm None Toy.rl_traj Toy.rand_traj tt tt 2 512 (Py.decimal 9 1)
               "rews" true 0%nat
  = (Raise (KeyError "rews"), 0%nat).
Proof. vm_compute. reflexivity. Qed.

Example toy_run_negative_epoch :
  Toy.train_dm None Toy.rl_traj Toy.rand_traj tt tt (-1) 512 (Py.decimal 9 1)
               "next_obs" true 0%nat
  = (Ok {[ "DynModelLoss" := [] ]}, 0%nat).
Proof. vm_compute. reflexivity. Qed.

Lemma train_dm_steps_per_epoch_witness :
  exists step,
    steps_per_epoch Toy.rl_traj Toy.rand_traj 460 52 = Ok step /\
    step = num_step Toy.rand_traj / 52 /\
    step * 52 <= num_step Toy.rand_traj < (step + 1) * 52.
Proof.
  apply (proj1 (train_dm_steps_per_epoch (Toy.lf_dynamics None) Toy.zero_grad
                  Toy.backward Toy.optim_step Toy.logger_log
                  Toy.rl_traj Toy.rand_traj 460 52)).
  lia.
Defined.

Lemma train_dm_loss_history_witness :
  exists dm_losses,
    ({[ "DynModelLoss" := replicate 38 (PyNdarray (mkNdArray (Toy.of_nat 512) Float32)) ]}
       : gmap string (list PyObj))
    = {[ "DynModelLoss" := dm_losses ]} /\
    dom ({[ "DynModelLoss" :=
              replicate 38 (PyNdarray (mkNdArray (Toy.of_nat 512) Float32)) ]}
           : gmap string (list PyObj))
    = ({[ "DynModelLoss" ]} : gset string) /\
    length dm_losses = (Z.to_nat 2 * Z.to_nat 19)%nat /\
    (0 <= 2 -> Z.of_nat (length dm_losses) = 2 * 19) /\
    (exists w0 w1,
       Toy.logger_log "Optimizing..." 0%nat = (Ok tt, w0) /\
       run_losses (Toy.lf_dynamics None) Toy.zero_grad Toy.backward
                  Toy.optim_step tt tt "next_obs" true Toy.rl_traj Toy.rand_traj
                  460 52 19 (Z.to_nat 2) w0 dm_losses w1) /\
    (num_step Toy.rand_traj = 1000 -> num_step Toy.rl_traj = 100 ->
     512 = 512 -> Py.decimal 9 1 = Py.decimal 9 1 -> 2 = 2 ->
     460 = 460 /\ 52 = 52 /\ 19 = 19 /\ length dm_losses = 38%nat).
Proof.
  apply (train_dm_loss_history (Toy.lf_dynamics None) Toy.zero_grad
           Toy.backward Toy.optim_step Toy.logger_log
           Toy.rl_traj Toy.rand_traj tt tt 2 512 (Py.decimal 9 1)
           "next_obs" true 460 52 19 _ 0%nat 38%nat).
  - vm_compute. reflexivity.
  - vm_compute. reflexivity.
  - reflexivity.
  - reflexivity.
  - reflexivity.
Defined.

Lemma toy_batch_size (x : Py.float64) (n : nat) : size (Toy.batch x n) <> 0%nat.
Proof.
  unfold Toy.batch. rewrite map_size_insert. simplify_map_eq. lia.
Qed.

Lemma toy_merge :
  merge_batch Toy.rl_batch Toy.rand_batch
  = Ok (Toy.merged_of Toy.rl_batch Toy.rand_batch).
Proof. vm_compute. reflexivity. Qed.

Lemma merge_batch_samples_sum_witness :
  exists t_rand t_rl t : Tensor,
    Toy.rand_batch !! "obs" = Some t_rand /\ Toy.rl_batch !! "obs" = Some t_rl /\
    Toy.merged_of Toy.rl_batch Toy.rand_batch !! "obs" = Some t /\
    n_samples t = (n_samples t_rand + n_samples t_rl)%nat.
Proof.
  apply (proj1 (merge_batch_samples_sum Toy.rl_batch Toy.rand_batch
                  (toy_batch_size _ _) (toy_batch_size _ _))).
  - exact toy_merge.
  - apply elem_of_merged_fields. auto.
Defined.

Lemma merge_batch_random_first_witness :
  exists t_rand t_rl t : Tensor,
    Toy.rand_batch !! "acs" = Some t_rand /\ Toy.rl_batch !! "acs" = Some t_rl /\
    Toy.merged_of Toy.rl_batch Toy.rand_batch !! "acs" = Some t /\
    rows t = rows t_rand ++ rows t_rl /\
    (forall i, (i < n_samples t_rand)%nat -> rows t !! i = rows t_rand !! i) /\
    (forall i, rows t !! (n_samples t_rand + i)%nat = rows t_rl !! i).
Proof.
  apply (merge_batch_random_first Toy.rl_batch Toy.rand_batch
           (Toy.merged_of Toy.rl_batch Toy.rand_batch) "acs"
           (toy_batch_size _ _) (toy_batch_size _ _) toy_merge).
  apply elem_of_merged_fields. auto.
Defined.

Example toy_merged_obs_rows :
  rows <$> (Toy.merged_of (Toy.batch (Toy.of_nat 1) 2) (Toy.batch (Toy.of_nat 2) 1)
              !! "obs")
  = Some [ [Toy.of_nat 2; Toy.of_nat 2];
           [Toy.of_nat 1; Toy.of_nat 1]; [Toy.of_nat 1; Toy.of_nat 1] ].
Proof. vm_compute. reflexivity. Qed.

Lemma update_dm_returns_host_array_witness :
  (numpy_supports Float32 = true ->
   Toy.update_dm None tt tt Toy.rand_batch "next_obs" true 5%nat
   = (Ok (PyNdarray (mkNdArray (Toy.of_nat 52) Float32)), 6%nat)) /\
  (numpy_supports Float32 = false ->
   Toy.update_dm None tt tt Toy.rand_batch "next_obs" true 5%nat
   = (Raise TypeError, 6%nat)).
Proof.
  apply (proj1 (update_dm_returns_host_array (Toy.lf_dynamics None)
                  Toy.zero_grad Toy.backward Toy.optim_step
                  tt tt Toy.rand_batch "next_obs" true 5%nat)
           (mkScalar (Toy.of_nat 52) Float32 (Cuda 0) true (Some "MseLossBackward"))
           5%nat 5%nat 5%nat 6%nat);
    vm_compute; reflexivity.
Defined.

Example toy_update_dm_bfloat16 :
  update_dm Toy.bf16_lf_dynamics Toy.zero_grad Toy.backward Toy.optim_step
            tt tt Toy.rand_batch "next_obs" true 5%nat
  = (Raise TypeError, 6%nat).
Proof. vm_compute. reflexivity. Qed.

(** Counterexample to C6 as worded: the value [update_dm] returns on this
    call is a [numpy.ndarray]; its type is not [float]. *)
Lemma update_dm_return_type_not_float :
  ~ (forall v w',
       Toy.update_dm None tt tt Toy.rand_batch "next_obs" true 5%nat = (Ok v, w') ->
       type_name v = "float").
Proof.
  intros H.
  assert (Hrun : Toy.update_dm None tt tt Toy.rand_batch "next_obs" true 5%nat
                 = (Ok (PyNdarray (mkNdArray (Toy.of_nat 52) Float32)), 6%nat))
    by (vm_compute; reflexivity).
  apply H in Hrun. discriminate Hrun.
Qed.

Lemma train_dm_pass_through_witness :
  exists batch,
    merge_batch ∅ Toy.rand_batch = Ok batch /\
    train_step (Toy.lf_dynamics None) Toy.zero_grad Toy.backward Toy.optim_step
               tt tt "next_obs" true ∅ Toy.rand_batch 0%nat
    = Toy.update_dm None tt tt batch "next_obs" true 0%nat /\
    (forall f, f ∈ merged_fields -> batch !! f = Toy.rand_batch !! f) /\
    (forall f, f ∉ merged_fields -> batch !! f = None) /\
    (batch = Toy.rand_batch <-> dom Toy.rand_batch = list_to_set merged_fields).
Proof.
  apply (proj1 (train_dm_pass_through (Toy.lf_dynamics None) Toy.zero_grad
                  Toy.backward Toy.optim_step tt tt "next_obs" true
                  ∅ Toy.rand_batch 0%nat)).
  - reflexivity.
  - apply toy_batch_fields.
Defined.

(** Counterexample to C4 as worded: with an empty on-policy batch and a
    random batch of the four fields [obs], [acs], [next_obs] and [rews],
    the batch handed to [update_dm] has no [rews] field and so is not the
    random batch. *)
Lemma train_dm_pass_through_drops_rews :
  size (∅ : Batch) = 0%nat /\
  merge_batch ∅ Toy.rand_batch = Ok (Toy.merged_of ∅ Toy.rand_batch) /\
  train_step (Toy.lf_dynamics None) Toy.zero_grad Toy.backward Toy.optim_step
             tt tt "next_obs" true ∅ Toy.rand_batch 0%nat
  = Toy.update_dm None tt tt (Toy.merged_of ∅ Toy.rand_batch)
                  "next_obs" true 0%nat /\
  is_Some (Toy.rand_batch !! "rews") /\
  Toy.merged_of ∅ Toy.rand_batch !! "rews" = None /\
  Toy.merged_of ∅ Toy.rand_batch <> Toy.rand_batch.
Proof.
  assert (Hrews : Toy.merged_of ∅ Toy.rand_batch !! "rews" = None)
    by (vm_compute; reflexivity).
  assert (Hsome : is_Some (Toy.rand_batch !! "rews"))
    by (vm_compute; eauto).
  split; [reflexivity |]. split; [vm_compute; reflexivity |].
  split; [vm_compute; reflexivity |].
  split; [exact Hsome |]. split; [exact Hrews |].
  intros Heq. rewrite Heq in Hrews. rewrite Hrews in Hsome.
  destruct Hsome as [t Ht]. discriminate Ht.
Qed.

Example toy_pass_through_three_fields :
  merge_batch ∅ (<["obs" := Toy.tensor 2 (Toy.of_nat 7) 3]>
                   (<["acs" := Toy.tensor 1 (Toy.of_nat 7) 3]>
                      (<["next_obs" := Toy.tensor 2 (Toy.of_nat 7) 3]> ∅)))
  = Ok (<["obs" := Toy.tensor 2 (Toy.of_nat 7) 3]>
          (<["acs" := Toy.tensor 1 (Toy.of_nat 7) 3]>
             (<["next_obs" := Toy.tensor 2 (Toy.of_nat 7) 3]> ∅))).
Proof. vm_compute. reflexivity. Qed.

Example toy_both_empty : merge_batch ∅ ∅ = Raise (KeyError "obs").
Proof. vm_compute. reflexivity. Qed.

Example toy_cat_shape_mismatch :
  exists msg,
    torch_cat (Toy.tensor 2 (Toy.of_nat 1) 1) (Toy.tensor 3 (Toy.of_nat 1) 1)
    = Raise (RuntimeError msg).
Proof. eexists. vm_compute. reflexivity. Qed.

Lemma train_dm_zero_sizes_fails_witness :
  steps_per_epoch Toy.rl_traj Toy.rand_traj 0 0 = Raise ZeroDivisionError /\
  (exists e w',
     Toy.train_dm None Toy.rl_traj Toy.rand_traj tt tt 60 0 (Py.decimal 9 1)
                  "next_obs" true 0%nat = (Raise e, w')) /\
  (forall w0,
     Toy.logger_log "Optimizing..." 0%nat = (Ok tt, w0) ->
     Toy.train_dm None Toy.rl_traj Toy.rand_traj tt tt 60 0 (Py.decimal 9 1)
                  "next_obs" true 0%nat = (Raise ZeroDivisionError, w0)).
Proof.
  apply (train_dm_zero_sizes_fails (Toy.lf_dynamics None) Toy.zero_grad
           Toy.backward Toy.optim_step Toy.logger_log
           Toy.rl_traj Toy.rand_traj tt tt 60 0 (Py.decimal 9 1)
           "next_obs" true 0%nat).
  vm_compute. reflexivity.
Defined.

Lemma train_step_batch_keys_witness :
  dom (Toy.merged_of Toy.rl_batch Toy.rand_batch)
  = ({[ "obs"; "acs"; "next_obs" ]} : gset string) /\
  Toy.merged_of Toy.rl_batch Toy.rand_batch !! "rews" = None /\
  train_step (Toy.lf_dynamics None) Toy.zero_grad Toy.backward Toy.optim_step
             tt tt "next_obs" true Toy.rl_batch Toy.rand_batch 0%nat
  = Toy.update_dm None tt tt (Toy.merged_of Toy.rl_batch Toy.rand_batch)
                  "next_obs" true 0%nat /\
  train_step (Toy.lf_dynamics None) Toy.zero_grad Toy.backward Toy.optim_step
             tt tt "rews" true Toy.rl_batch Toy.rand_batch 0%nat
  = Toy.update_dm None tt tt (Toy.merged_of Toy.rl_batch Toy.rand_batch)
                  "rews" true 0%nat.
Proof.
  apply (proj1 (train_step_batch_keys (Toy.lf_dynamics None) Toy.zero_grad
                  Toy.backward Toy.optim_step tt tt "next_obs" true
                  Toy.rl_batch Toy.rand_batch 0%nat)).
  exact toy_merge.
Defined.

Lemma train_dm_propagates_failure_witness :
  Toy.train_dm (Some 3%nat) Toy.rl_traj Toy.rand_traj tt tt 2 512
               (Py.decimal 9 1) "next_obs" true 0%nat
  = (Raise (ExternalError "loss is not finite"), 3%nat).
Proof.
  apply (proj2 (train_dm_propagates_failure (Toy.lf_dynamics (Some 3%nat))
                  Toy.zero_grad Toy.backward Toy.optim_step Toy.logger_log)
           Toy.rl_traj Toy.rand_traj tt tt 2 512 (Py.decimal 9 1) "next_obs" true
           460 52 19 0%nat
           (replicate 3 (ret Toy.rl_batch)) (replicate 15 (ret Toy.rl_batch))
           (replicate 3 (ret Toy.rand_batch)) (replicate 15 (ret Toy.rand_batch))
           (ret Toy.rl_batch) (ret Toy.rand_batch)
           [] (replicate 3 (PyNdarray (mkNdArray (Toy.of_nat 512) Float32)))
           Toy.rl_batch Toy.rand_batch
           (Toy.merged_of Toy.rl_batch Toy.rand_batch)
           (ExternalError "loss is not finite")
           0%nat 0%nat 0%nat 3%nat 3%nat 3%nat 3%nat).
  - vm_compute. reflexivity.
  - reflexivity.
  - reflexivity.
  - vm_compute. lia.
  - reflexivity.
  - reflexivity.
  - reflexivity.
  - reflexivity.
  - vm_compute. reflexivity.
  - reflexivity.
  - reflexivity.
  - exact toy_merge.
  - vm_compute. reflexivity.
Defined.

(** * Further properties of [train_dm] *)

Section MoreMonadFacts.
Context {W : Type}.

Lemma bind_ret_r {A} (m : M W A) (w : W) : bind m ret w = m w.
Proof. unfold bind, ret. destruct (m w) as [[a | e] w']; reflexivity. Qed.

Lemma bind_ext {A B} (m : M W A) (k k' : A -> M W B) (w : W) :
  (forall a w1, k a w1 = k' a w1) -> bind m k w = bind m k' w.
Proof.
  intros H. unfold bind. destruct (m w) as [[a | e] w']; [apply H | reflexivity].
Qed.

End MoreMonadFacts.

Section LoopStructure.
Context {W Model Optimizer : Type}.
Variable lf_dynamics : Model -> Batch -> string -> bool -> M W ScalarTensor.
Variable zero_grad : Optimizer -> M W unit.
Variable backward : ScalarTensor -> M W unit.
Variable optim_step : Optimizer -> M W unit.
Variable logger_log : string -> M W unit.

Local Abbreviation update := (update_dm lf_dynamics zero_grad backward optim_step).
Local Abbreviation one_step := (train_step lf_dynamics zero_grad backward optim_step).
Local Abbreviation zip := (zip_loop lf_dynamics zero_grad backward optim_step).
Local Abbreviation epochs := (epoch_loop lf_dynamics zero_grad backward optim_step).
Local Abbreviation train :=
  (train_dm lf_dynamics zero_grad backward optim_step logger_log).

(** X1. The loss list of a returning run has, for each of the
    [max(epoch, 0)] epochs, as many elements as the shorter of the two
    generators yields: [zip] stops with the first generator that is
    exhausted, whatever the computed step count. *)
Theorem train_dm_history_follows_shorter_generator
    (rl_traj rand_traj : Traj W) (dyn_model : Model)
    (optim_dm : Optimizer) (epoch batch_size : Z) (rl_batch_rate : Py.float64)
    (target : string) (td : bool) (result_dict : gmap string (list PyObj))
    (w w' : W) :
  train rl_traj rand_traj dyn_model optim_dm epoch batch_size rl_batch_rate
        target td w = (Ok result_dict, w') ->
  exists batch_size_rl batch_size_rand step dm_losses,
    split_batch_size batch_size rl_batch_rate
      = Ok (batch_size_rl, batch_size_rand) /\
    steps_per_epoch rl_traj rand_traj batch_size_rl batch_size_rand = Ok step /\
    result_dict = {[ "DynModelLoss" := dm_losses ]} /\
    length dm_losses
    = (Z.to_nat epoch *
       Nat.min (length (random_batch rl_traj batch_size_rl step))
               (length (random_batch rand_traj batch_size_rand step)))%nat.
Proof.
  intros H.
  apply train_dm_inv in H
    as (bs_rl & bs_rand & step & dm_losses & w0 & w1 & Hsplit & _ & Hstep
        & Hloop & _ & ->).
  apply epoch_loop_history in Hloop as (new & -> & Hlen).
  exists bs_rl, bs_rand, step, new. auto.
Qed.

(** X2. [zip] advances the on-policy generator first. When the on-policy
    generator is the longer one, every epoch draws one more on-policy batch
    after the last step and drops it, so that the draw's effects and
    exceptions are those of the epoch; a longer random generator is never
    advanced past the last step. *)
Theorem zip_loop_surplus_draw (dyn_model : Model) (optim_dm : Optimizer)
    (target : string) (td : bool)
    (rl_gen rand_gen rl_rest rand_rest : list (M W Batch)) (next_rl : M W Batch)
    (dm_losses : list PyObj) (w : W) :
  length rl_gen = length rand_gen ->
  zip dyn_model optim_dm target td (rl_gen ++ next_rl :: rl_rest) rand_gen
      dm_losses w
  = (do dm_losses' <- zip dyn_model optim_dm target td rl_gen rand_gen dm_losses ;
     run next_rl ;
     ret dm_losses')%monad w /\
  zip dyn_model optim_dm target td rl_gen (rand_gen ++ rand_rest) dm_losses w
  = zip dyn_model optim_dm target td rl_gen rand_gen dm_losses w.
Proof.
  intros Hlen. split.
  - rewrite <- (app_nil_r rand_gen) at 1.
    rewrite (zip_loop_app _ _ _ _ _ _ _ _ _ _ _ _ Hlen). reflexivity.
  - rewrite <- (app_nil_r rl_gen) at 1.
    rewrite (zip_loop_app _ _ _ _ _ _ _ _ _ _ _ _ Hlen).
    apply (bind_ret_r (zip dyn_model optim_dm target td rl_gen rand_gen dm_losses)).
Qed.

(** X3. The step count fails in one way only, with [ZeroDivisionError], and
    exactly when the on-policy sub-size is zero and the random sub-size is
    not positive: for the sizes [train_dm] computes, exactly when the
    on-policy sub-size is zero and [batch_size] is zero or negative. *)
Theorem steps_per_epoch_raises_iff (rl_traj rand_traj : Traj W)
    (batch_size_rl batch_size_rand : Z) (e : exn) :
  (steps_per_epoch rl_traj rand_traj batch_size_rl batch_size_rand = Raise e
   <-> e = ZeroDivisionError /\ batch_size_rand <= 0 /\ batch_size_rl = 0) /\
  (forall batch_size rl_batch_rate,
     split_batch_size batch_size rl_batch_rate
       = Ok (batch_size_rl, batch_size_rand) ->
     (steps_per_epoch rl_traj rand_traj batch_size_rl batch_size_rand = Raise e
      <-> e = ZeroDivisionError /\ batch_size_rl = 0 /\ batch_size <= 0)).
Proof.
  assert (Hiff :
    steps_per_epoch rl_traj rand_traj batch_size_rl batch_size_rand = Raise e
    <-> e = ZeroDivisionError /\ batch_size_rand <= 0 /\ batch_size_rl = 0).
  { unfold steps_per_epoch, Py.floordiv.
    destruct (Z.ltb_spec 0 batch_size_rand) as [Hpos | Hneg].
    - destruct (Z.eqb_spec batch_size_rand 0) as [H0 | _]; [lia |].
      split; [discriminate | intros (_ & H & _); lia].
    - destruct (Z.eqb_spec batch_size_rl 0) as [H0 | Hne].
      + split; [intros [= <-]; auto | intros (-> & _); reflexivity].
      + split; [discriminate | intros (_ & _ & H); contradiction]. }
  split; [exact Hiff |].
  intros batch_size rate Hsplit. rewrite Hiff.
  apply split_batch_size_sum in Hsplit.
  split; intros (He & H1 & H2); repeat split; try assumption; lia.
Qed.

Lemma epoch_loop_ext (dyn_model : Model) (optim_dm : Optimizer)
    (target : string) (td : bool) (rl_traj rl_traj' rand_traj rand_traj' : Traj W)
    (batch_size_rl batch_size_rand step : Z) :
  random_batch rl_traj batch_size_rl step
    = random_batch rl_traj' batch_size_rl step ->
  random_batch rand_traj batch_size_rand step
    = random_batch rand_traj' batch_size_rand step ->
  forall (n : nat) (dm_losses : list PyObj) (w : W),
    epochs dyn_model optim_dm target td rl_traj rand_traj
           batch_size_rl batch_size_rand step n dm_losses w
    = epochs dyn_model optim_dm target td rl_traj' rand_traj'
             batch_size_rl batch_size_rand step n dm_losses w.
Proof.
  intros Hrl Hrand. induction n as [| n IH]; intros dm_losses w; [reflexivity |].
  simpl. rewrite Hrl, Hrand. apply bind_ext. exact IH.
Qed.

(** X4. Only one of the two step counts is read. When the random sub-size
    is positive the run does not depend on the step count of the on-policy
    source, and when it is not, the run does not depend on the step count
    of the random source. *)
Theorem train_dm_ignores_other_num_step (dyn_model : Model)
    (optim_dm : Optimizer) (epoch batch_size : Z) (rl_batch_rate : Py.float64)
    (target : string) (td : bool) (batch_size_rl batch_size_rand : Z) :
  split_batch_size batch_size rl_batch_rate = Ok (batch_size_rl, batch_size_rand) ->
  (0 < batch_size_rand ->
   forall (n n' : Z) (gen : Z -> Z -> list (M W Batch)) (rand_traj : Traj W) (w : W),
     train (mkTraj n gen) rand_traj dyn_model optim_dm epoch batch_size
           rl_batch_rate target td w
     = train (mkTraj n' gen) rand_traj dyn_model optim_dm epoch batch_size
             rl_batch_rate target td w) /\
  (batch_size_rand <= 0 ->
   forall (n n' : Z) (gen : Z -> Z -> list (M W Batch)) (rl_traj : Traj W) (w : W),
     train rl_traj (mkTraj n gen) dyn_model optim_dm epoch batch_size
           rl_batch_rate target td w
     = train rl_traj (mkTraj n' gen) dyn_model optim_dm epoch batch_size
             rl_batch_rate target td w).
Proof.
  intros Hsplit. split.
  - intros Hpos n n' gen rand_traj w. unfold train_dm.
    rewrite Hsplit, !bind_lift_ok. simpl fst. simpl snd.
    apply bind_ext. intros [] w0. unfold steps_per_epoch.
    rewrite (proj2 (Z.ltb_lt _ _) Hpos).
    destruct (Py.floordiv (num_step rand_traj) batch_size_rand) as [step | e];
      [| reflexivity].
    rewrite !bind_lift_ok. unfold bind at 1 3.
    rewrite (epoch_loop_ext _ _ _ _ (mkTraj n gen) (mkTraj n' gen)
               rand_traj rand_traj _ _ _ eq_refl eq_refl).
    reflexivity.
  - intros Hneg n n' gen rl_traj w. unfold train_dm.
    rewrite Hsplit, !bind_lift_ok. simpl fst. simpl snd.
    apply bind_ext. intros [] w0. unfold steps_per_epoch.
    rewrite (proj2 (Z.ltb_ge _ _) Hneg).
    destruct (Py.floordiv (num_step rl_traj) batch_size_rl) as [step | e];
      [| reflexivity].
    rewrite !bind_lift_ok. unfold bind at 1 3.
    rewrite (epoch_loop_ext _ _ _ _ rl_traj rl_traj
               (mkTraj n gen) (mkTraj n' gen) _ _ _ eq_refl eq_refl).
    reflexivity.
Qed.

(** X5. For an [epoch] that is zero or negative [train_dm] draws no batch
    and updates nothing: once the sizes and the step count are computed it
    makes its two log calls and returns an empty loss list. *)
Theorem train_dm_no_epoch (rl_traj rand_traj : Traj W) (dyn_model : Model)
    (optim_dm : Optimizer) (epoch batch_size : Z) (rl_batch_rate : Py.float64)
    (target : string) (td : bool) (batch_size_rl batch_size_rand step : Z)
    (w w0 w' : W) :
  epoch <= 0 ->
  split_batch_size batch_size rl_batch_rate = Ok (batch_size_rl, batch_size_rand) ->
  steps_per_epoch rl_traj rand_traj batch_size_rl batch_size_rand = Ok step ->
  logger_log "Optimizing..." w = (Ok tt, w0) ->
  logger_log "Optimization finished!" w0 = (Ok tt, w') ->
  train rl_traj rand_traj dyn_model optim_dm epoch batch_size rl_batch_rate
        target td w = (Ok {[ "DynModelLoss" := [] ]}, w').
Proof.
  intros Hepoch Hsplit Hstep Hlog Hlog'.
  rewrite (train_dm_unfold _ _ _ _ _ _ _ _ _ _ _ _ _ _ _ _ _ _ _
             Hsplit Hlog Hstep).
  replace (Z.to_nat epoch) with 0%nat by lia. simpl.
  unfold bind at 1. unfold ret at 1.
  rewrite (bind_ok _ _ _ _ _ Hlog'). reflexivity.
Qed.

(** X6. A random source with fewer steps than the random sub-size gives a
    step count of zero, without an error; if its generator then yields
    nothing, every returning run returns an empty loss list, whatever the
    number of epochs. *)
Theorem train_dm_source_too_small (rl_traj rand_traj : Traj W) (dyn_model : Model)
    (optim_dm : Optimizer) (epoch batch_size : Z) (rl_batch_rate : Py.float64)
    (target : string) (td : bool) (batch_size_rl batch_size_rand : Z) :
  split_batch_size batch_size rl_batch_rate = Ok (batch_size_rl, batch_size_rand) ->
  0 <= num_step rand_traj < batch_size_rand ->
  steps_per_epoch rl_traj rand_traj batch_size_rl batch_size_rand = Ok 0 /\
  (random_batch rand_traj batch_size_rand 0 = [] ->
   forall result_dict w w',
     train rl_traj rand_traj dyn_model optim_dm epoch batch_size rl_batch_rate
           target td w = (Ok result_dict, w') ->
     result_dict = {[ "DynModelLoss" := [] ]}).
Proof.
  intros Hsplit Hsmall.
  assert (Hstep : steps_per_epoch rl_traj rand_traj batch_size_rl batch_size_rand
                  = Ok 0).
  { unfold steps_per_epoch. rewrite (proj2 (Z.ltb_lt 0 batch_size_rand)) by lia.
    rewrite floordiv_nonzero by lia. rewrite Z.div_small by lia. reflexivity. }
  split; [exact Hstep |].
  intros Hgen result_dict w w' Hrun.
  apply train_dm_inv in Hrun
    as (bs_rl & bs_rand & step & dm_losses & w0 & w1 & Hsplit' & _ & Hstep'
        & Hloop & _ & ->).
  rewrite Hsplit in Hsplit'. injection Hsplit' as <- <-.
  rewrite Hstep in Hstep'. injection Hstep' as <-.
  apply epoch_loop_history in Hloop as (new & -> & Hlen).
  rewrite Hgen in Hlen. simpl in Hlen.
  rewrite Nat.min_0_r, Nat.mul_0_r in Hlen.
  apply nil_length_inv in Hlen. rewrite Hlen. reflexivity.
Qed.

(** X7. Training for more epochs extends the loss list: from the same
    world and with the same arguments, the list of a run with fewer epochs
    is a prefix of the list of a run with more. *)
Theorem train_dm_history_prefix (rl_traj rand_traj : Traj W) (dyn_model : Model)
    (optim_dm : Optimizer) (epoch epoch' batch_size : Z)
    (rl_batch_rate : Py.float64) (target : string) (td : bool)
    (result_dict result_dict' : gmap string (list PyObj)) (w w1 w2 : W) :
  epoch <= epoch' ->
  train rl_traj rand_traj dyn_model optim_dm epoch batch_size rl_batch_rate
        target td w = (Ok result_dict, w1) ->
  train rl_traj rand_traj dyn_model optim_dm epoch' batch_size rl_batch_rate
        target td w = (Ok result_dict', w2) ->
  exists dm_losses later,
    result_dict = {[ "DynModelLoss" := dm_losses ]} /\
    result_dict' = {[ "DynModelLoss" := dm_losses ++ later ]}.
Proof.
  intros Hle H H'.
  apply train_dm_inv in H
    as (bs_rl & bs_rand & step & l & w0 & w3 & Hsplit & Hlog & Hstep
        & Hloop & _ & ->).
  apply train_dm_inv in H'
    as (bs_rl' & bs_rand' & step' & l' & w0' & w3' & Hsplit' & Hlog' & Hstep'
        & Hloop' & _ & ->).
  rewrite Hsplit in Hsplit'. injection Hsplit' as <- <-.
  rewrite Hlog in Hlog'. injection Hlog' as <-.
  rewrite Hstep in Hstep'. injection Hstep' as <-.
  replace (Z.to_nat epoch')
    with (Z.to_nat epoch + (Z.to_nat epoch' - Z.to_nat epoch))%nat in Hloop'
    by lia.
  rewrite epoch_loop_add, (bind_ok _ _ _ _ _ Hloop) in Hloop'.
  apply epoch_loop_history in Hloop' as (later & -> & _).
  exists l, later. auto.
Qed.

Lemma train_step_inv (dyn_model : Model) (optim_dm : Optimizer)
    (target : string) (td : bool) (rl_batch rand_batch : Batch)
    (dm_loss : PyObj) (w w' : W) :
  one_step dyn_model optim_dm target td rl_batch rand_batch w = (Ok dm_loss, w') ->
  exists batch,
    merge_batch rl_batch rand_batch = Ok batch /\
    update dyn_model optim_dm batch target td w = (Ok dm_loss, w').
Proof.
  unfold train_step. intros H.
  apply bind_inv_ok in H as (batch & w1 & Hm & H).
  unfold lift in Hm. injection Hm as Hm <-. eauto.
Qed.

Lemma epoch_losses_ndarrays (dyn_model : Model) (optim_dm : Optimizer)
    (target : string) (td : bool) (rl_gen rand_gen : list (M W Batch))
    (losses : list PyObj) (w w' : W) :
  epoch_losses lf_dynamics zero_grad backward optim_step
               dyn_model optim_dm target td rl_gen rand_gen w losses w' ->
  Forall (fun x => exists a, x = PyNdarray a) losses.
Proof.
  induction 1 as [| | ? ? ? ? ? ? dm_loss ? ? ? ? ? ? _ _ Hstep _ IH];
    [constructor | constructor |].
  constructor; [| exact IH].
  apply train_step_inv in Hstep as (batch & _ & Hup).
  apply update_dm_inv in Hup as (t & ? & ? & ? & _ & _ & _ & _ & _ & ->). eauto.
Qed.

(** X8. Every element of the loss list [train_dm] returns is a
    zero-dimensional [numpy.ndarray]: the list holds no tensor, so it keeps
    no computation graph and no accelerator memory alive. *)
Theorem train_dm_history_ndarrays (rl_traj rand_traj : Traj W) (dyn_model : Model)
    (optim_dm : Optimizer) (epoch batch_size : Z) (rl_batch_rate : Py.float64)
    (target : string) (td : bool) (result_dict : gmap string (list PyObj))
    (w w' : W) :
  train rl_traj rand_traj dyn_model optim_dm epoch batch_size rl_batch_rate
        target td w = (Ok result_dict, w') ->
  exists dm_losses,
    result_dict = {[ "DynModelLoss" := dm_losses ]} /\
    Forall (fun x => exists a, x = PyNdarray a) dm_losses /\
    Forall (fun x => type_name x = "numpy.ndarray") dm_losses.
Proof.
  intros H.
  apply train_dm_inv in H
    as (bs_rl & bs_rand & step & dm_losses & w0 & w1 & _ & _ & _ & Hloop & _ & ->).
  apply epoch_loop_losses in Hloop as (new & E & Hrun). simpl in E. subst new.
  exists dm_losses. split; [reflexivity |].
  assert (Hall : Forall (fun x => exists a, x = PyNdarray a) dm_losses).
  { induction Hrun as [| ? ? ? ? ? ? Hfirst _ IH]; [constructor |].
    apply Forall_app. split; [| exact IH].
    eapply epoch_losses_ndarrays. exact Hfirst. }
  split; [exact Hall |].
  eapply Forall_impl; [exact Hall |]. intros x [a ->]. reflexivity.
Qed.

(** An exception in the rest of an epoch, after steps and epochs that
    succeeded, is the outcome of [train_dm]. *)
Lemma train_dm_raises_in_epoch (rl_traj rand_traj : Traj W) (dyn_model : Model)
    (optim_dm : Optimizer) (epoch batch_size : Z) (rl_batch_rate : Py.float64)
    (target : string) (td : bool) (batch_size_rl batch_size_rand step : Z)
    (epochs_done : nat) (rl_done rl_left rand_done rand_left : list (M W Batch))
    (losses losses' : list PyObj) (e : exn) (w w0 w1 w2 w' : W) :
  split_batch_size batch_size rl_batch_rate = Ok (batch_size_rl, batch_size_rand) ->
  logger_log "Optimizing..." w = (Ok tt, w0) ->
  steps_per_epoch rl_traj rand_traj batch_size_rl batch_size_rand = Ok step ->
  (epochs_done < Z.to_nat epoch)%nat ->
  epochs dyn_model optim_dm target td rl_traj rand_traj
         batch_size_rl batch_size_rand step epochs_done [] w0 = (Ok losses, w1) ->
  random_batch rl_traj batch_size_rl step = rl_done ++ rl_left ->
  random_batch rand_traj batch_size_rand step = rand_done ++ rand_left ->
  length rl_done = length rand_done ->
  zip dyn_model optim_dm target td rl_done rand_done losses w1 = (Ok losses', w2) ->
  zip dyn_model optim_dm target td rl_left rand_left losses' w2 = (Raise e, w') ->
  train rl_traj rand_traj dyn_model optim_dm epoch batch_size rl_batch_rate
        target td w = (Raise e, w').
Proof.
  intros Hsplit Hlog Hstep Hlt Hepochs Hrl Hrand Hlen Hzip Hfail.
  rewrite (train_dm_unfold _ _ _ _ _ _ _ _ _ _ _ _ _ _ _ _ _ _ _
             Hsplit Hlog Hstep).
  apply bind_raise.
  replace (Z.to_nat epoch)
    with (epochs_done + S (Z.to_nat epoch - epochs_done - 1))%nat by lia.
  rewrite epoch_loop_add, (bind_ok _ _ _ _ _ Hepochs).
  simpl. apply bind_raise.
  rewrite Hrl, Hrand, (zip_loop_app _ _ _ _ _ _ _ _ _ _ _ _ Hlen),
    (bind_ok _ _ _ _ _ Hzip).
  exact Hfail.
Qed.

(** X9. An exception while a batch is drawn from either generator, and an
    exception of the merge (a missing field, tensors that do not fit), end
    [train_dm] at once with that exception; in the last case [update_dm] is
    not called, and the world is the one the draws left. *)
Theorem train_dm_aborts_on_bad_batch (rl_traj rand_traj : Traj W)
    (dyn_model : Model) (optim_dm : Optimizer) (epoch batch_size : Z)
    (rl_batch_rate : Py.float64) (target : string) (td : bool)
    (batch_size_rl batch_size_rand step : Z) (epochs_done : nat)
    (rl_done rl_rest rand_done rand_left : list (M W Batch)) (next_rl : M W Batch)
    (losses losses' : list PyObj) (e : exn) (w w0 w1 w2 w3 : W) :
  split_batch_size batch_size rl_batch_rate = Ok (batch_size_rl, batch_size_rand) ->
  logger_log "Optimizing..." w = (Ok tt, w0) ->
  steps_per_epoch rl_traj rand_traj batch_size_rl batch_size_rand = Ok step ->
  (epochs_done < Z.to_nat epoch)%nat ->
  epochs dyn_model optim_dm target td rl_traj rand_traj
         batch_size_rl batch_size_rand step epochs_done [] w0 = (Ok losses, w1) ->
  random_batch rl_traj batch_size_rl step = rl_done ++ next_rl :: rl_rest ->
  random_batch rand_traj batch_size_rand step = rand_done ++ rand_left ->
  length rl_done = length rand_done ->
  zip dyn_model optim_dm target td rl_done rand_done losses w1 = (Ok losses', w2) ->
  (next_rl w2 = (Raise e, w3) ->
   train rl_traj rand_traj dyn_model optim_dm epoch batch_size rl_batch_rate
         target td w = (Raise e, w3)) /\
  (forall rl_batch next_rand rand_rest w4,
     rand_left = next_rand :: rand_rest ->
     next_rl w2 = (Ok rl_batch, w3) ->
     (next_rand w3 = (Raise e, w4) ->
      train rl_traj rand_traj dyn_model optim_dm epoch batch_size rl_batch_rate
            target td w = (Raise e, w4)) /\
     (forall rand_batch,
        next_rand w3 = (Ok rand_batch, w4) ->
        merge_batch rl_batch rand_batch = Raise e ->
        train rl_traj rand_traj dyn_model optim_dm epoch batch_size rl_batch_rate
              target td w = (Raise e, w4))).
Proof.
  intros Hsplit Hlog Hstep Hlt Hepochs Hrl Hrand Hlen Hzip.
  pose proof (fun w' H =>
    train_dm_raises_in_epoch _ _ dyn_model optim_dm epoch _ _ target td _ _ _ _
      _ _ _ _ _ _ e _ _ _ _ w'
      Hsplit Hlog Hstep Hlt Hepochs Hrl Hrand Hlen Hzip H) as Habort.
  split.
  - intros Hdraw. apply Habort. simpl. apply bind_raise. exact Hdraw.
  - intros rl_batch next_rand rand_rest w4 -> Hdraw. split.
    + intros Hdraw'. apply Habort. simpl.
      rewrite (bind_ok _ _ _ _ _ Hdraw). apply bind_raise. exact Hdraw'.
    + intros rand_batch Hdraw' Hmerge. apply Habort.
      eapply zip_loop_cons_raises; [eassumption .. |].
      apply train_step_merge_raises. exact Hmerge.
Qed.

End LoopStructure.

(** * Further properties of the merge *)

Section MoreMergeFacts.

Lemma torch_cat_raises (a b : Tensor) (e : exn) :
  torch_cat a b = Raise e ->
  trailing a <> trailing b /\ exists msg, e = RuntimeError msg.
Proof.
  unfold torch_cat, same_trailing.
  destruct (is_legacy_empty a); [discriminate |].
  destruct (is_legacy_empty b); [discriminate |].
  case_bool_decide as Ht; [discriminate |].
  intros [= <-]. eauto.
Qed.

(** X10. The merge fails in two ways only: with [KeyError] for one of
    [obs], [acs], [next_obs] that is absent from a batch it reads (the
    random batch when the on-policy batch is empty, the on-policy batch
    when only the random one is empty), or, when both batches are
    non-empty, with the [RuntimeError] of [torch.cat] for a field whose two
    tensors differ in the dimensions after the first. *)
Theorem merge_batch_raises (rl_batch rand_batch : Batch) (e : exn) :
  merge_batch rl_batch rand_batch = Raise e ->
  (exists f, f ∈ merged_fields /\ e = KeyError f /\
     ((size rl_batch = 0%nat /\ rand_batch !! f = None) \/
      (size rl_batch <> 0%nat /\ size rand_batch = 0%nat /\
       rl_batch !! f = None) \/
      (size rl_batch <> 0%nat /\ size rand_batch <> 0%nat /\
       (rand_batch !! f = None \/ rl_batch !! f = None)))) \/
  (size rl_batch <> 0%nat /\ size rand_batch <> 0%nat /\
   exists f t_rand t_rl msg,
     f ∈ merged_fields /\
     rand_batch !! f = Some t_rand /\ rl_batch !! f = Some t_rl /\
     trailing t_rand <> trailing t_rl /\ e = RuntimeError msg).
Proof.
  assert (Hin : forall f, f = "obs" \/ f = "acs" \/ f = "next_obs" ->
                          f ∈ merged_fields)
    by (intros f; apply elem_of_merged_fields).
  unfold merge_batch, getitem. cbv zeta. intros H.
  case_bool_decide as H1; [| case_bool_decide as H2].
  - left.
    repeat match type of H with
      | context [?d !! ?k] =>
          let E := fresh "E" in
          destruct (d !! k) eqn:E; simpl in H;
          [| injection H as <-; exists k; auto 10]
      end.
    discriminate.
  - left.
    repeat match type of H with
      | context [?d !! ?k] =>
          let E := fresh "E" in
          destruct (d !! k) eqn:E; simpl in H;
          [| injection H as <-; exists k; auto 10]
      end.
    discriminate.
  - repeat match type of H with
      | context [rand_batch !! ?k] =>
          let E := fresh "E" in
          destruct (rand_batch !! k) eqn:E; simpl in H;
          [| left; injection H as <-; exists k; auto 10]
      | context [rl_batch !! ?k] =>
          let E := fresh "E" in
          destruct (rl_batch !! k) eqn:E; simpl in H;
          [| left; injection H as <-; exists k; auto 10]
      | context [torch_cat ?a ?b] =>
          let E := fresh "E" in
          destruct (torch_cat a b) eqn:E; simpl in H;
          [| right; injection H as <-;
             apply torch_cat_raises in E as (Hne & msg & ->);
             do 2 (split; [assumption |]); do 4 eexists; eauto 10]
      end.
    discriminate.
Qed.

(** X11. The merge reads nothing but [obs], [acs], [next_obs] and whether
    each batch is empty: two pairs of batches that agree on these give the
    same merged batch or the same exception, whatever else they hold. *)
Theorem merge_batch_reads_three_fields (rl_batch rand_batch rl_batch' rand_batch' : Batch) :
  (size rl_batch = 0%nat <-> size rl_batch' = 0%nat) ->
  (size rand_batch = 0%nat <-> size rand_batch' = 0%nat) ->
  (forall f, f ∈ merged_fields ->
     rl_batch !! f = rl_batch' !! f /\ rand_batch !! f = rand_batch' !! f) ->
  merge_batch rl_batch rand_batch = merge_batch rl_batch' rand_batch'.
Proof.
  intros Hrl Hrand Hf.
  assert (Hobs := Hf "obs" (proj2 (elem_of_merged_fields _) (or_introl eq_refl))).
  assert (Hacs := Hf "acs"
            (proj2 (elem_of_merged_fields _) (or_intror (or_introl eq_refl)))).
  assert (Hnext := Hf "next_obs"
            (proj2 (elem_of_merged_fields _) (or_intror (or_intror eq_refl)))).
  destruct Hobs as [Ho1 Ho2], Hacs as [Ha1 Ha2], Hnext as [Hn1 Hn2].
  unfold merge_batch, getitem. cbv zeta.
  rewrite Ho1, Ho2, Ha1, Ha2, Hn1, Hn2.
  rewrite (bool_decide_ext _ _ Hrl), (bool_decide_ext _ _ Hrand).
  reflexivity.
Qed.

End MoreMergeFacts.

(** * What [train_dm] asks of its collaborators *)

Section Collaborators.
Context {W Model Optimizer : Type}.
Variables lf_dynamics lf_dynamics'
  : Model -> Batch -> string -> bool -> M W ScalarTensor.
Variables zero_grad zero_grad' : Optimizer -> M W unit.
Variable backward : ScalarTensor -> M W unit.
Variables optim_step optim_step' : Optimizer -> M W unit.
Variable logger_log : string -> M W unit.
Variables (dyn_model : Model) (optim_dm : Optimizer) (target : string) (td : bool).

(** Two loss functionals that agree on the given model, target and flag
    for batches of the three merged fields, and two optimizers that agree
    on the given handle. *)
Hypothesis same_loss :
  forall (batch : Batch) (w : W),
    dom batch = (list_to_set merged_fields : gset string) ->
    lf_dynamics dyn_model batch target td w
    = lf_dynamics' dyn_model batch target td w.
Hypothesis same_zero_grad :
  forall w, zero_grad optim_dm w = zero_grad' optim_dm w.
Hypothesis same_optim_step :
  forall w, optim_step optim_dm w = optim_step' optim_dm w.

Lemma update_dm_same (batch : Batch) (w : W) :
  dom batch = (list_to_set merged_fields : gset string) ->
  update_dm lf_dynamics zero_grad backward optim_step
            dyn_model optim_dm batch target td w
  = update_dm lf_dynamics' zero_grad' backward optim_step'
              dyn_model optim_dm batch target td w.
Proof using same_loss same_zero_grad same_optim_step.
  intros Hdom. unfold update_dm, bind. rewrite (same_loss _ _ Hdom).
  destruct (lf_dynamics' dyn_model batch target td w) as [[dm_loss | e] w1];
    [| reflexivity].
  rewrite same_zero_grad.
  destruct (zero_grad' optim_dm w1) as [[[] | e] w2]; [| reflexivity].
  destruct (backward dm_loss w2) as [[[] | e] w3]; [| reflexivity].
  rewrite same_optim_step. reflexivity.
Qed.

Lemma train_step_same (rl_batch rand_batch : Batch) (w : W) :
  train_step lf_dynamics zero_grad backward optim_step
             dyn_model optim_dm target td rl_batch rand_batch w
  = train_step lf_dynamics' zero_grad' backward optim_step'
               dyn_model optim_dm target td rl_batch rand_batch w.
Proof using same_loss same_zero_grad same_optim_step.
  unfold train_step.
  destruct (merge_batch rl_batch rand_batch) as [batch | e] eqn:Hm;
    [| reflexivity].
  rewrite !bind_lift_ok. apply update_dm_same.
  eapply merge_batch_dom. exact Hm.
Qed.

Lemma zip_loop_same (rl_gen : list (M W Batch)) :
  forall (rand_gen : list (M W Batch)) (dm_losses : list PyObj) (w : W),
    zip_loop lf_dynamics zero_grad backward optim_step
             dyn_model optim_dm target td rl_gen rand_gen dm_losses w
    = zip_loop lf_dynamics' zero_grad' backward optim_step'
               dyn_model optim_dm target td rl_gen rand_gen dm_losses w.
Proof using same_loss same_zero_grad same_optim_step.
  induction rl_gen as [| next_rl rl_gen IH]; intros rand_gen dm_losses w;
    [reflexivity |].
  simpl. apply bind_ext. intros rl_batch w1.
  destruct rand_gen as [| next_rand rand_gen]; [reflexivity |].
  apply bind_ext. intros rand_batch w2.
  unfold bind. rewrite train_step_same.
  destruct (train_step lf_dynamics' zero_grad' backward optim_step'
              dyn_model optim_dm target td rl_batch rand_batch w2)
    as [[dm_loss | e] w3]; [apply IH | reflexivity].
Qed.

Lemma epoch_loop_same (rl_traj rand_traj : Traj W)
    (batch_size_rl batch_size_rand step : Z) (n : nat) :
  forall (dm_losses : list PyObj) (w : W),
    epoch_loop lf_dynamics zero_grad backward optim_step
               dyn_model optim_dm target td rl_traj rand_traj
               batch_size_rl batch_size_rand step n dm_losses w
    = epoch_loop lf_dynamics' zero_grad' backward optim_step'
                 dyn_model optim_dm target td rl_traj rand_traj
                 batch_size_rl batch_size_rand step n dm_losses w.
Proof using same_loss same_zero_grad same_optim_step.
  induction n as [| n IH]; intros dm_losses w; [reflexivity |].
  simpl. unfold bind. rewrite zip_loop_same.
  destruct (zip_loop lf_dynamics' zero_grad' backward optim_step'
              dyn_model optim_dm target td
              (random_batch rl_traj batch_size_rl step)
              (random_batch rand_traj batch_size_rand step) dm_losses w)
    as [[l | e] w1]; [apply IH | reflexivity].
Qed.

(** X12. [train_dm] calls the loss functional only with the model, the
    target and the flag it was given and with batches whose fields are
    exactly [obs], [acs], [next_obs], and the optimizer only through the
    handle it was given: collaborators that agree there give the same run,
    result and world. *)
Theorem train_dm_uses_only_its_arguments (rl_traj rand_traj : Traj W)
    (epoch batch_size : Z) (rl_batch_rate : Py.float64) (w : W) :
  train_dm lf_dynamics zero_grad backward optim_step logger_log
           rl_traj rand_traj dyn_model optim_dm epoch batch_size rl_batch_rate
           target td w
  = train_dm lf_dynamics' zero_grad' backward optim_step' logger_log
             rl_traj rand_traj dyn_model optim_dm epoch batch_size rl_batch_rate
             target td w.
Proof using same_loss same_zero_grad same_optim_step.
  unfold train_dm.
  apply bind_ext. intros sizes w0.
  apply bind_ext. intros [] w1.
  apply bind_ext. intros step w2.
  unfold bind at 1 3. rewrite epoch_loop_same. reflexivity.
Qed.

End Collaborators.

(** * Further properties of the batch split *)

Section FloatFacts.

Lemma shr_1_nonneg (mrs : shr_record) : 0 <= shr_m mrs -> 0 <= shr_m (shr_1 mrs).
Proof. destruct mrs as [[| [p | p |] | [p | p |]] r s]; simpl; lia. Qed.

Lemma iter_shr_1_nonneg (p : positive) :
  forall mrs, 0 <= shr_m mrs -> 0 <= shr_m (SpecFloat.iter_pos shr_1 p mrs).
Proof.
  induction p as [p IH | p IH |]; intros mrs H; simpl;
    auto using shr_1_nonneg.
Qed.

Lemma shr_fexp_nonneg (m e : Z) (l : location) :
  0 <= m -> 0 <= shr_m (fst (shr_fexp Py.prec Py.emax m e l)).
Proof.
  intros Hm. unfold shr_fexp, shr.
  assert (H0 : 0 <= shr_m (shr_record_of_loc m l))
    by (destruct l as [| []]; exact Hm).
  destruct (fexp Py.prec Py.emax (Zdigits2 m + e) - e); simpl;
    auto using iter_shr_1_nonneg.
Qed.

Lemma round_nearest_even_nonneg (m : Z) (l : location) :
  0 <= m -> 0 <= round_nearest_even m l.
Proof.
  intros Hm. unfold round_nearest_even.
  destruct l as [| []]; try destruct (Z.even m); lia.
Qed.

(** Rounding a non-negative mantissa never gives a NaN, and keeps the
    sign. *)
Lemma binary_round_aux_form (sx : bool) (mx ex : Z) (lx : location) :
  0 <= mx ->
  binary_round_aux Py.prec Py.emax sx mx ex lx = S754_zero sx \/
  binary_round_aux Py.prec Py.emax sx mx ex lx = S754_infinity sx \/
  exists m e, binary_round_aux Py.prec Py.emax sx mx ex lx = S754_finite sx m e.
Proof.
  intros Hmx. unfold binary_round_aux.
  pose proof (shr_fexp_nonneg mx ex lx Hmx) as H1.
  destruct (shr_fexp Py.prec Py.emax mx ex lx) as [mrs' e']. simpl in H1.
  pose proof (shr_fexp_nonneg _ e' loc_Exact
                (round_nearest_even_nonneg _ (loc_of_shr_record mrs') H1)) as H2.
  destruct (shr_fexp Py.prec Py.emax
              (round_nearest_even (shr_m mrs') (loc_of_shr_record mrs'))
              e' loc_Exact) as [mrs'' e''].
  simpl in H2.
  destruct (shr_m mrs'') as [| m | m]; [auto | | lia].
  destruct (e'' <=? Py.emax - Py.prec); eauto.
Qed.

(** [float(n)] is a zero or a finite float of the sign of [n]. *)
Lemma float_of_int_form (n : Z) (x : Py.float64) :
  Py.float_of_int n = Ok x ->
  x = S754_zero (n <? 0) \/ exists m e, x = S754_finite (n <? 0) m e.
Proof.
  unfold Py.float_of_int, binary_normalize.
  destruct n as [| p | p]; [intros [= <-]; auto | |];
    unfold binary_round; destruct (shl_align p 0 _) as [mz ez];
    match goal with
    | |- context [binary_round_aux _ _ ?s _ _ _] =>
        destruct (binary_round_aux_form s (Z.pos mz) ez loc_Exact)
          as [H | [H | (m & e & H)]]; [lia | | |]; rewrite H
    end;
    try discriminate; intros [= <-]; eauto.
Qed.

Lemma float_of_int_finite (n : Z) (x : Py.float64) :
  Py.float_of_int n = Ok x -> Py.is_finite x = true.
Proof.
  intros H. apply float_of_int_form in H as [-> | (m & e & ->)]; reflexivity.
Qed.

Lemma digits2_pos_iter_xO (m : positive) (k : positive) :
  Z.pos (digits2_pos (Pos.iter xO m k)) = Z.pos (digits2_pos m) + Z.pos k.
Proof.
  revert m. induction k using Pos.peano_ind; intros m.
  - simpl. lia.
  - rewrite Pos.iter_succ. simpl. rewrite Pos2Z.inj_succ, IHk. lia.
Qed.

Lemma pos_iter_xO_mul (m k : positive) : Pos.iter xO m k = (m * 2 ^ k)%positive.
Proof.
  induction k using Pos.peano_ind.
  - simpl. lia.
  - rewrite Pos.iter_succ, IHk, Pos.pow_succ_r. lia.
Qed.

Lemma digits2_pos_bound (m : positive) (d : Z) :
  0 <= d -> Z.pos m < 2 ^ d -> Z.pos (digits2_pos m) <= d.
Proof.
  revert d. induction m as [m IH | m IH |]; intros d Hd Hm; simpl.
  - assert (0 < d) by (destruct (Z.eq_dec d 0); [subst; simpl in Hm; lia | lia]).
    rewrite Pos2Z.inj_succ.
    assert (Z.pos (digits2_pos m) <= d - 1); [| lia].
    apply IH; [lia |].
    replace d with (Z.succ (d - 1)) in Hm by lia. rewrite Z.pow_succ_r in Hm by lia. lia.
  - assert (0 < d) by (destruct (Z.eq_dec d 0); [subst; simpl in Hm; lia | lia]).
    rewrite Pos2Z.inj_succ.
    assert (Z.pos (digits2_pos m) <= d - 1); [| lia].
    apply IH; [lia |].
    replace d with (Z.succ (d - 1)) in Hm by lia. rewrite Z.pow_succ_r in Hm by lia. lia.
  - destruct (Z.eq_dec d 0); [subst; simpl in Hm; lia | lia].
Qed.

(** A mantissa of 53 digits at an exponent in range is left as it is. *)
Lemma binary_round_aux_exact (s : bool) (m : positive) (e : Z) :
  Z.pos (digits2_pos m) = 53 -> -1074 <= e <= 971 ->
  binary_round_aux Py.prec Py.emax s (Z.pos m) e loc_Exact = S754_finite s m e.
Proof.
  intros Hd He. unfold binary_round_aux, shr_fexp, Zdigits2.
  rewrite Hd. unfold fexp, emin, Py.prec, Py.emax.
  replace (Z.max (53 + e - 53) (3 - 1024 - 53) - e) with 0 by lia.
  simpl shr. cbv iota beta. simpl.
  rewrite Hd.
  replace (Z.max (53 + e - 53) (3 - 1024 - 53) - e) with 0 by lia.
  simpl.
  destruct (Z.leb_spec e (1024 - 53)); [reflexivity | lia].
Qed.

(** The conversion of a positive integer below [2^53] is exact. *)
Lemma binary_round_small (s : bool) (p : positive) :
  Z.pos p < 2 ^ 53 ->
  exists m e, binary_round Py.prec Py.emax s p 0 = S754_finite s m e /\
    Z.pos (digits2_pos m) = 53 /\ -52 <= e <= 0 /\ Z.pos m = Z.pos p * 2 ^ (- e).
Proof.
  intros Hp. pose proof (digits2_pos_bound p 53 ltac:(lia) Hp) as Hd.
  unfold binary_round, shl_align.
  assert (Hf : fexp Py.prec Py.emax (Z.pos (digits2_pos p) + 0)
               = Z.pos (digits2_pos p) - 53)
    by (unfold fexp, emin, Py.prec, Py.emax; lia).
  rewrite Hf.
  destruct (Z.pos (digits2_pos p) - 53 - 0) as [| k | k] eqn:Hk; [| lia |].
  - exists p, 0. rewrite binary_round_aux_exact by lia.
    repeat split; try lia.
  - exists (Pos.iter xO p k), (Z.pos (digits2_pos p) - 53).
    rewrite binary_round_aux_exact.
    + repeat split; try lia.
      * rewrite digits2_pos_iter_xO. lia.
      * rewrite pos_iter_xO_mul, Pos2Z.inj_mul, Pos2Z.inj_pow. f_equal. f_equal. lia.
    + rewrite digits2_pos_iter_xO. lia.
    + lia.
Qed.

(** Multiplying by [1.0] changes nothing. *)
Lemma float_mul_one (s : bool) (m : positive) (e : Z) :
  Z.pos (digits2_pos m) = 53 -> -1022 <= e <= 971 ->
  Py.float_mul (S754_finite s m e) (S754_finite false 4503599627370496 (-52))
  = S754_finite s m e.
Proof.
  intros Hd He.
  assert (Hd' : digits2_pos m = 53%positive) by lia.
  unfold Py.float_mul, SFmul. rewrite xorb_false_r.
  change 4503599627370496%positive with (2 ^ 52)%positive.
  rewrite <- pos_iter_xO_mul.
  unfold binary_round_aux, shr_fexp.
  replace (fexp Py.prec Py.emax (Zdigits2 (Z.pos (Pos.iter xO m 52)) + (e + -52))
           - (e + -52)) with 52.
  2:{ unfold Zdigits2. rewrite digits2_pos_iter_xO, Hd.
      unfold fexp, emin, Py.prec, Py.emax. lia. }
  cbn [Pos.iter]. simpl. rewrite Hd'.
  replace (fexp Py.prec Py.emax (53 + (e + -52 + 52)) - (e + -52 + 52)) with 0
    by (unfold fexp, emin, Py.prec, Py.emax; lia).
  simpl.
  replace (e + -52 + 52) with e by lia.
  destruct (Z.leb_spec e (Py.emax - Py.prec)); [reflexivity |].
  unfold Py.emax, Py.prec in *. lia.
Qed.

Lemma float_of_int_raises (n : Z) (e : exn) :
  Py.float_of_int n = Raise e -> e = OverflowError.
Proof.
  unfold Py.float_of_int.
  destruct (binary_normalize Py.prec Py.emax n 0 false); congruence.
Qed.

(** The conversion of an integer of magnitude below [2^53] succeeds and
    gives a float that [1.0] leaves unchanged and whose truncation is the
    integer. *)
Lemma float_of_int_small (n : Z) :
  Z.abs n < 2 ^ 53 ->
  exists x,
    Py.float_of_int n = Ok x /\
    Py.float_mul x (S754_finite false 4503599627370496 (-52)) = x /\
    Py.int_of_float x = Ok n.
Proof.
  intros Hn. unfold Py.float_of_int, binary_normalize.
  destruct n as [| p | p].
  - exists (S754_zero false). auto.
  - destruct (binary_round_small false p) as (m & e & -> & Hd & He & Hm); [lia |].
    exists (S754_finite false m e). split; [reflexivity |].
    split; [apply float_mul_one; lia |].
    simpl. destruct (Z.leb_spec 0 e).
    + replace e with 0 in * by lia. rewrite Z.shiftl_0_r. f_equal. lia.
    + rewrite Z.shiftr_div_pow2 by lia. rewrite Hm.
      rewrite Z.div_mul by (apply Z.pow_nonzero; lia). reflexivity.
  - destruct (binary_round_small true p) as (m & e & -> & Hd & He & Hm); [lia |].
    exists (S754_finite true m e). split; [reflexivity |].
    split; [apply float_mul_one; lia |].
    simpl. destruct (Z.leb_spec 0 e).
    + replace e with 0 in * by lia. rewrite Z.shiftl_0_r. f_equal. lia.
    + rewrite Z.shiftr_div_pow2 by lia. rewrite Hm.
      rewrite Z.div_mul by (apply Z.pow_nonzero; lia). reflexivity.
Qed.

(** X13. With a rate of [0.0] (of either sign) the whole batch size goes to
    the random source: the on-policy sub-size is 0 and the random sub-size
    is [batch_size]; the step count is then that of the random source for a
    positive [batch_size] and a [ZeroDivisionError] otherwise. *)
Theorem split_batch_size_zero_rate {W : Type} (rl_traj rand_traj : Traj W)
    (batch_size : Z) (s : bool) (x : Py.float64) :
  Py.float_of_int batch_size = Ok x ->
  split_batch_size batch_size (S754_zero s) = Ok (0, batch_size) /\
  (0 < batch_size ->
   steps_per_epoch rl_traj rand_traj 0 batch_size
   = Ok (num_step rand_traj / batch_size)) /\
  (batch_size <= 0 ->
   steps_per_epoch rl_traj rand_traj 0 batch_size = Raise ZeroDivisionError).
Proof.
  intros Hx. split; [| split].
  - unfold split_batch_size, Py.int_mul_float, result_bind. rewrite Hx.
    apply float_of_int_form in Hx as [-> | (m & e & ->)]; simpl;
      rewrite Z.sub_0_r; reflexivity.
  - intros Hpos. unfold steps_per_epoch.
    rewrite (proj2 (Z.ltb_lt _ _) Hpos). apply floordiv_nonzero. lia.
  - intros Hneg. unfold steps_per_epoch.
    rewrite (proj2 (Z.ltb_ge _ _) Hneg). reflexivity.
Qed.

(** X14. With a rate of [1.0] and a batch size of magnitude below [2^53]
    the whole batch size goes to the on-policy source: the on-policy
    sub-size is [batch_size], the random sub-size is 0, and the step count
    is that of the on-policy source, a [ZeroDivisionError] for a batch
    size of 0. *)
Theorem split_batch_size_unit_rate {W : Type} (rl_traj rand_traj : Traj W)
    (batch_size : Z) :
  Z.abs batch_size < 2 ^ 53 ->
  Py.decimal 1 0 = S754_finite false 4503599627370496 (-52) /\
  split_batch_size batch_size (Py.decimal 1 0) = Ok (batch_size, 0) /\
  steps_per_epoch rl_traj rand_traj batch_size 0
  = Py.floordiv (num_step rl_traj) batch_size /\
  (steps_per_epoch rl_traj rand_traj batch_size 0 = Raise ZeroDivisionError
   <-> batch_size = 0).
Proof.
  intros Hsmall.
  assert (Hone : Py.decimal 1 0 = S754_finite false 4503599627370496 (-52))
    by (vm_compute; reflexivity).
  split; [exact Hone |]. split; [| split].
  - destruct (float_of_int_small batch_size Hsmall) as (x & Hx & Hmul & Hint).
    unfold split_batch_size, Py.int_mul_float, result_bind.
    rewrite Hx, Hone, Hmul, Hint, Z.sub_diag. reflexivity.
  - reflexivity.
  - unfold steps_per_epoch, Py.floordiv. simpl.
    destruct (Z.eqb_spec batch_size 0); split; intros H; congruence.
Qed.

(** X15. For a batch size that is not negative and a rate that is not
    negative, the on-policy sub-size is not negative and the random
    sub-size does not exceed the batch size. *)
Theorem split_batch_size_nonneg (batch_size : Z) (rl_batch_rate : Py.float64)
    (batch_size_rl batch_size_rand : Z) :
  0 <= batch_size ->
  (0 <= Py.value rl_batch_rate)%Q ->
  split_batch_size batch_size rl_batch_rate = Ok (batch_size_rl, batch_size_rand) ->
  0 <= batch_size_rl /\ batch_size_rand <= batch_size.
Proof.
  intros Hbs Hrate Hsplit.
  assert (Hrl : 0 <= batch_size_rl);
    [| apply split_batch_size_sum in Hsplit; lia].
  revert Hsplit. unfold split_batch_size, Py.int_mul_float, result_bind.
  destruct (Py.float_of_int batch_size) as [x | e] eqn:Hx; [| discriminate].
  apply float_of_int_form in Hx.
  rewrite (proj2 (Z.ltb_ge batch_size 0) Hbs) in Hx.
  destruct (Py.int_of_float (Py.float_mul x rl_batch_rate)) as [z | e] eqn:Hz;
    [| discriminate].
  intros [= <- _].
  destruct rl_batch_rate as [sy | sy | | sy my ey];
    destruct Hx as [-> | (m & e & ->)];
    try (simpl in Hz; first [discriminate | injection Hz as <-; lia]).
  destruct sy.
  { exfalso. revert Hrate. simpl.
    destruct (Z.leb_spec 0 ey) as [Hey | Hey]; unfold Qle; simpl; [| lia].
    pose proof (Z.pow_pos_nonneg 2 ey ltac:(lia) Hey). nia. }
  unfold Py.float_mul, SFmul in Hz. simpl xorb in Hz.
  destruct (binary_round_aux_form false (Z.pos (m * my)) (e + ey) loc_Exact)
    as [H | [H | (m' & e' & H)]]; [lia | | |]; rewrite H in Hz; simpl in Hz;
    try discriminate; injection Hz as <-; [lia |].
  destruct (0 <=? e').
  - apply Z.shiftl_nonneg. lia.
  - apply Z.shiftr_nonneg. lia.
Qed.

End FloatFacts.

Section RateFacts.
Context {W Model Optimizer : Type}.
Variable lf_dynamics : Model -> Batch -> string -> bool -> M W ScalarTensor.
Variable zero_grad : Optimizer -> M W unit.
Variable backward : ScalarTensor -> M W unit.
Variable optim_step : Optimizer -> M W unit.
Variable logger_log : string -> M W unit.

(** X16. A rate that is a NaN or an infinity is refused before anything
    else happens: [int()] raises [ValueError] or [OverflowError], and
    [train_dm] raises it without a log call, a draw or an update. *)
Theorem train_dm_rejects_non_finite_rate (rl_traj rand_traj : Traj W)
    (dyn_model : Model) (optim_dm : Optimizer) (epoch batch_size : Z)
    (rl_batch_rate : Py.float64) (target : string) (td : bool) :
  Py.is_finite rl_batch_rate = false ->
  exists e,
    (e = ValueError \/ e = OverflowError) /\
    split_batch_size batch_size rl_batch_rate = Raise e /\
    forall w,
      train_dm lf_dynamics zero_grad backward optim_step logger_log
               rl_traj rand_traj dyn_model optim_dm epoch batch_size
               rl_batch_rate target td w = (Raise e, w).
Proof.
  intros Hrate.
  assert (Hsplit : exists e, (e = ValueError \/ e = OverflowError) /\
                             split_batch_size batch_size rl_batch_rate = Raise e).
  { unfold split_batch_size, Py.int_mul_float, result_bind.
    destruct (Py.float_of_int batch_size) as [x | e] eqn:Hx.
    - apply float_of_int_form in Hx.
      destruct rl_batch_rate as [sy | sy | | sy my ey]; try discriminate;
        destruct Hx as [-> | (m & e & ->)]; simpl; eauto.
    - apply float_of_int_raises in Hx as ->. eauto. }
  destruct Hsplit as (e & He & Hsplit).
  exists e. split; [exact He |]. split; [exact Hsplit |].
  intros w. unfold train_dm. rewrite Hsplit. reflexivity.
Qed.

End RateFacts.

(** * The sub-batch sizes for a rate between 0 and 1 *)

Section RoundingFacts.

Lemma shr_1_inv (M j : Z) (mrs : shr_record) :
  0 <= j -> shr_inv M j mrs -> shr_inv M (j + 1) (shr_1 mrs).
Proof.
  intros Hj (H0 & Hle & Hr). unfold shr_inv.
  rewrite Z.pow_add_r, Z.pow_1_r by lia.
  pose proof (Z.pow_pos_nonneg 2 j ltac:(lia) Hj) as Hp.
  destruct mrs as [[| [p | p |] | [p | p |]] r s]; unfold shr_inv in *; simpl in *;
    try lia; repeat split; try lia; try discriminate; nia.
Qed.

Lemma iter_shr_1_inv (M : Z) (p : positive) :
  forall j mrs, 0 <= j -> shr_inv M j mrs ->
    shr_inv M (j + Z.pos p) (SpecFloat.iter_pos shr_1 p mrs).
Proof.
  induction p as [p IH | p IH |]; intros j mrs Hj H; simpl.
  - replace (j + Z.pos p~1) with (j + 1 + Z.pos p + Z.pos p) by lia.
    apply IH; [lia |]. apply IH; [lia |]. apply shr_1_inv; assumption.
  - replace (j + Z.pos p~0) with (j + Z.pos p + Z.pos p) by lia.
    apply IH; [lia |]. apply IH; assumption.
  - apply shr_1_inv; assumption.
Qed.

Lemma shr_fexp_bound (m e : Z) :
  0 <= m ->
  exists k,
    0 <= k /\ e + k = Z.max e (fexp Py.prec Py.emax (Zdigits2 m + e)) /\
    snd (shr_fexp Py.prec Py.emax m e loc_Exact) = e + k /\
    shr_inv m k (fst (shr_fexp Py.prec Py.emax m e loc_Exact)).
Proof.
  intros Hm. unfold shr_fexp, shr. simpl shr_record_of_loc.
  assert (H0 : shr_inv m 0 {| shr_m := m; shr_r := false; shr_s := false |}).
  { unfold shr_inv. simpl. repeat split; first [lia | discriminate]. }
  destruct (fexp Py.prec Py.emax (Zdigits2 m + e) - e) as [| p | p] eqn:Hk.
  - exists 0. simpl. split; [lia |]. split; [lia |]. split; [lia |]. exact H0.
  - exists (Z.pos p). simpl. split; [lia |]. split; [lia |]. split; [reflexivity |].
    apply (iter_shr_1_inv m p 0); [lia | exact H0].
  - exists 0. simpl. split; [lia |]. split; [lia |]. split; [lia |]. exact H0.
Qed.

Lemma round_nearest_even_le (M k b : Z) (mrs : shr_record) :
  0 <= k -> shr_inv M k mrs -> M <= b * 2 ^ k ->
  0 <= round_nearest_even (shr_m mrs) (loc_of_shr_record mrs) <= b.
Proof.
  intros Hk (H0 & Hle & Hr) Hb.
  pose proof (Z.pow_pos_nonneg 2 k ltac:(lia) Hk) as Hp.
  destruct mrs as [m [|] [|]]; simpl in *;
    try destruct (Z.even m); try specialize (Hr eq_refl); split; try lia; nia.
Qed.

Lemma binary_round_aux_bound (s : bool) (M : positive) (E b g : Z) :
  E <= g -> fexp Py.prec Py.emax (Z.pos (digits2_pos M) + E) <= g ->
  Z.pos M <= b * 2 ^ (g - E) ->
  binary_round_aux Py.prec Py.emax s (Z.pos M) E loc_Exact = S754_zero s \/
  exists m' e',
    E <= e' /\ Z.pos m' * 2 ^ (e' - E) <= b * 2 ^ (g - E) /\
    binary_round_aux Py.prec Py.emax s (Z.pos M) E loc_Exact
    = if e' <=? Py.emax - Py.prec then S754_finite s m' e' else S754_infinity s.
Proof.
  intros HE Hg Hb. unfold binary_round_aux.
  destruct (shr_fexp_bound (Z.pos M) E ltac:(lia)) as (k1 & Hk1 & He1 & Hs1 & Hi1).
  destruct (shr_fexp Py.prec Py.emax (Z.pos M) E loc_Exact) as [mrs1 e1].
  simpl in Hs1, Hi1. subst e1. simpl Zdigits2 in He1.
  assert (Hgrid : E + k1 <= g) by lia.
  assert (Hsplit : b * 2 ^ (g - E) = b * 2 ^ (g - (E + k1)) * 2 ^ k1).
  { rewrite <- Z.mul_assoc, <- Z.pow_add_r by lia. do 2 f_equal. lia. }
  rewrite Hsplit in Hb.
  pose proof (round_nearest_even_le _ _ _ _ Hk1 Hi1 Hb) as Hround.
  set (mr := round_nearest_even (shr_m mrs1) (loc_of_shr_record mrs1)) in *.
  destruct (shr_fexp_bound mr (E + k1) ltac:(lia)) as (k2 & Hk2 & _ & Hs2 & Hi2).
  destruct (shr_fexp Py.prec Py.emax mr (E + k1) loc_Exact) as [mrs2 e2].
  simpl in Hs2, Hi2. subst e2. destruct Hi2 as (H0 & Hle & _).
  destruct (shr_m mrs2) as [| m' | m']; [left; reflexivity | right | lia].
  exists m', (E + k1 + k2). split; [lia |]. split; [| reflexivity].
  rewrite Hsplit.
  replace (E + k1 + k2 - E) with (k2 + k1) by lia.
  rewrite Z.pow_add_r by lia.
  pose proof (Z.pow_pos_nonneg 2 k1 ltac:(lia) Hk1).
  pose proof (Z.pow_pos_nonneg 2 k2 ltac:(lia) Hk2).
  nia.
Qed.

Lemma digits2_pos_lt (m : positive) : Z.pos m < 2 ^ Z.pos (digits2_pos m).
Proof.
  induction m as [m IH | m IH |]; simpl; [| | lia];
    rewrite Pos2Z.inj_succ, Z.pow_succ_r by lia; lia.
Qed.

Lemma rate_at_most_one (my : positive) (ey : Z) :
  (Py.value (S754_finite false my ey) <= 1)%Q ->
  ey <= 0 /\ Z.pos my <= 2 ^ (- ey).
Proof.
  simpl. destruct (Z.leb_spec 0 ey) as [Hey | Hey]; unfold Qle; simpl.
  - intros H. pose proof (Z.pow_pos_nonneg 2 ey ltac:(lia) Hey) as Hp.
    destruct (Z.eq_dec ey 0) as [-> | Hne]; [simpl in *; lia |].
    assert (2 ^ 1 <= 2 ^ ey) by (apply Z.pow_le_mono_r; lia). nia.
  - intros H. pose proof (Z.pow_pos_nonneg 2 (- ey) ltac:(lia) ltac:(lia)) as Hp.
    rewrite Z2Pos.id in H by lia. lia.
Qed.

(** For a batch size below [2^53] and a rate between 0 and 1 the split
    succeeds and both sub-sizes lie between 0 and the batch size. *)
Lemma split_batch_size_bounds (batch_size : Z) (rl_batch_rate : Py.float64) :
  0 <= batch_size < 2 ^ 53 ->
  Py.is_finite rl_batch_rate = true ->
  (0 <= Py.value rl_batch_rate)%Q -> (Py.value rl_batch_rate <= 1)%Q ->
  exists batch_size_rl,
    split_batch_size batch_size rl_batch_rate
      = Ok (batch_size_rl, batch_size - batch_size_rl) /\
    0 <= batch_size_rl <= batch_size /\
    0 <= batch_size - batch_size_rl <= batch_size.
Proof.
  intros Hbs Hfin Hlo Hhi.
  enough (H : exists rl, Py.int_mul_float batch_size rl_batch_rate
                         = Ok (Py.float_mul
                                 match Py.float_of_int batch_size with
                                 | Ok x => x | Raise _ => S754_nan end
                                 rl_batch_rate) /\
                         Py.int_of_float
                           (Py.float_mul
                              match Py.float_of_int batch_size with
                              | Ok x => x | Raise _ => S754_nan end
                              rl_batch_rate) = Ok rl /\
                         0 <= rl <= batch_size).
  { destruct H as (rl & H1 & H2 & H3). exists rl.
    unfold split_batch_size, result_bind. rewrite H1, H2.
    split; [reflexivity | lia]. }
  unfold Py.int_mul_float, result_bind.
  destruct batch_size as [| p | p]; [| | lia].
  - exists 0. change (Py.float_of_int 0) with (Ok (S754_zero false) : result Py.float64).
    destruct rl_batch_rate; try discriminate; simpl; auto with zarith.
  - unfold Py.float_of_int, binary_normalize.
    destruct (binary_round_small false p) as (mx & ex & -> & Hd & Hex & Hmx); [lia |].
    destruct rl_batch_rate as [sy | sy | | sy my ey]; try discriminate.
    { exists 0. simpl. split; [reflexivity |]. split; [reflexivity | lia]. }
    destruct sy.
    { exfalso. revert Hlo. simpl.
      destruct (Z.leb_spec 0 ey) as [Hey | Hey]; unfold Qle; simpl; [| lia].
      pose proof (Z.pow_pos_nonneg 2 ey ltac:(lia) Hey). nia. }
    apply rate_at_most_one in Hhi as (Hey & Hmy).
    pose proof (digits2_pos_lt mx) as Hmx53. rewrite Hd in Hmx53.
    pose proof (Z.pow_pos_nonneg 2 (- ey) ltac:(lia) ltac:(lia)) as Hpey.
    assert (HM : Z.pos (mx * my) < 2 ^ (53 - ey)).
    { rewrite Pos2Z.inj_mul. replace (53 - ey) with (53 + - ey) by lia.
      rewrite Z.pow_add_r by lia. nia. }
    pose proof (digits2_pos_bound (mx * my) (53 - ey) ltac:(lia) HM) as HdM.
    unfold Py.float_mul, SFmul. simpl xorb.
    destruct (binary_round_aux_bound false (mx * my) (ex + ey) (Z.pos mx) ex)
      as [-> | (m' & e' & He' & Hle & ->)].
    + lia.
    + unfold fexp, emin, Py.prec, Py.emax. lia.
    + replace (ex - (ex + ey)) with (- ey) by lia. rewrite Pos2Z.inj_mul. nia.
    + exists 0. simpl. split; [reflexivity |]. split; [reflexivity | lia].
    + replace (ex - (ex + ey)) with (- ey) in Hle by lia.
      assert (He53 : e' - (ex + ey) < 53 - ey).
      { apply (Z.pow_lt_mono_r_iff 2); [lia | lia |].
        pose proof (Z.pow_pos_nonneg 2 (e' - (ex + ey)) ltac:(lia) ltac:(lia)).
        replace (53 - ey) with (53 + - ey) by lia. rewrite Z.pow_add_r by lia.
        nia. }
      destruct (Z.leb_spec e' (Py.emax - Py.prec)) as [_ | Hbig];
        [| unfold Py.emax, Py.prec in Hbig; lia].
      assert (Hscale : Z.pos mx * 2 ^ (- ey) = Z.pos p * 2 ^ (- (ex + ey))).
      { rewrite Hmx. replace (- (ex + ey)) with (- ex + - ey) by lia.
        rewrite Z.pow_add_r by lia. lia. }
      rewrite Hscale in Hle.
      simpl Py.int_of_float.
      destruct (Z.leb_spec 0 e') as [Hpos | Hneg].
      * exists (Z.shiftl (Z.pos m') e'). split; [reflexivity |]. split; [reflexivity |].
        rewrite Z.shiftl_mul_pow2 by lia.
        pose proof (Z.pow_pos_nonneg 2 e' ltac:(lia) Hpos) as Hpe.
        pose proof (Z.pow_pos_nonneg 2 (- (ex + ey)) ltac:(lia) ltac:(lia)) as HpE.
        replace (e' - (ex + ey)) with (e' + - (ex + ey)) in Hle by lia.
        rewrite Z.pow_add_r in Hle by lia. split; [lia | nia].
      * exists (Z.shiftr (Z.pos m') (- e')). split; [reflexivity |].
        split; [reflexivity |].
        rewrite Z.shiftr_div_pow2 by lia.
        pose proof (Z.pow_pos_nonneg 2 (- e') ltac:(lia) ltac:(lia)) as Hpe.
        pose proof (Z.pow_pos_nonneg 2 (e' - (ex + ey)) ltac:(lia) ltac:(lia)) as HpE.
        replace (- (ex + ey)) with (- e' + (e' - (ex + ey))) in Hle by lia.
        rewrite Z.pow_add_r in Hle by lia.
        split; [apply Z.div_pos; lia |].
        apply Z.div_le_upper_bound; [lia |]. nia.
Qed.

(** X17. For a batch size from 0 to below [2^53] and a rate from 0.0 to
    1.0, the two sub-batch sizes are defined, and each lies between 0 and
    the batch size: the rounding of the float product never takes the
    on-policy sub-size above the batch size, so the random sub-size is
    never negative. *)
Theorem split_batch_size_within (batch_size : Z) (rl_batch_rate : Py.float64) :
  0 <= batch_size < 2 ^ 53 ->
  Py.is_finite rl_batch_rate = true ->
  (0 <= Py.value rl_batch_rate)%Q -> (Py.value rl_batch_rate <= 1)%Q ->
  exists batch_size_rl batch_size_rand,
    split_batch_size batch_size rl_batch_rate
      = Ok (batch_size_rl, batch_size_rand) /\
    batch_size_rl + batch_size_rand = batch_size /\
    0 <= batch_size_rl <= batch_size /\
    0 <= batch_size_rand <= batch_size.
Proof.
  intros Hbs Hfin Hlo Hhi.
  destruct (split_batch_size_bounds batch_size rl_batch_rate Hbs Hfin Hlo Hhi)
    as (rl & Hsplit & Hrl & Hrand).
  exists rl, (batch_size - rl). repeat split; try assumption; lia.
Qed.

(** X18. For a positive batch size below [2^53] and a rate from 0.0 to 1.0
    the step count is always defined: the division by zero of the step
    count cannot occur, and for sources with non-negative step counts the
    step count is not negative. *)
Theorem steps_per_epoch_defined {W : Type} (rl_traj rand_traj : Traj W)
    (batch_size : Z) (rl_batch_rate : Py.float64) :
  0 < batch_size < 2 ^ 53 ->
  Py.is_finite rl_batch_rate = true ->
  (0 <= Py.value rl_batch_rate)%Q -> (Py.value rl_batch_rate <= 1)%Q ->
  exists batch_size_rl batch_size_rand step,
    split_batch_size batch_size rl_batch_rate
      = Ok (batch_size_rl, batch_size_rand) /\
    steps_per_epoch rl_traj rand_traj batch_size_rl batch_size_rand = Ok step /\
    (0 <= num_step rl_traj -> 0 <= num_step rand_traj -> 0 <= step).
Proof.
  intros Hbs Hfin Hlo Hhi.
  destruct (split_batch_size_bounds batch_size rl_batch_rate
              ltac:(lia) Hfin Hlo Hhi) as (rl & Hsplit & Hrl & Hrand).
  unfold steps_per_epoch.
  destruct (Z.ltb_spec 0 (batch_size - rl)) as [Hpos | Hzero].
  - exists rl, (batch_size - rl), (num_step rand_traj / (batch_size - rl)).
    split; [exact Hsplit |].
    rewrite (proj2 (Z.ltb_lt _ _) Hpos).
    split; [apply floordiv_nonzero; lia |].
    intros _ Hn. apply Z.div_pos; lia.
  - exists rl, (batch_size - rl), (num_step rl_traj / rl).
    split; [exact Hsplit |].
    rewrite (proj2 (Z.ltb_ge _ _) Hzero).
    split; [apply floordiv_nonzero; lia |].
    intros Hn _. apply Z.div_pos; lia.
Qed.

End RoundingFacts.

(** * Runs in the small world, continued *)

Lemma train_dm_history_follows_shorter_generator_witness :
  exists batch_size_rl batch_size_rand step dm_losses,
    split_batch_size 512 (Py.decimal 9 1) = Ok (batch_size_rl, batch_size_rand) /\
    steps_per_epoch Toy.rl_traj (Toy.capped_traj 5 (Toy.of_nat 2) 1000)
                    batch_size_rl batch_size_rand = Ok step /\
    ({[ "DynModelLoss" := replicate 10 (PyNdarray (mkNdArray (Toy.of_nat 512) Float32)) ]}
       : gmap string (list PyObj))
    = {[ "DynModelLoss" := dm_losses ]} /\
    length dm_losses
    = (Z.to_nat 2 *
       Nat.min (length (random_batch Toy.rl_traj batch_size_rl step))
               (length (random_batch (Toy.capped_traj 5 (Toy.of_nat 2) 1000)
                                     batch_size_rand step)))%nat.
Proof.
  apply (train_dm_history_follows_shorter_generator
           (Toy.lf_dynamics None) Toy.zero_grad Toy.backward Toy.optim_step
           Toy.logger_log Toy.rl_traj (Toy.capped_traj 5 (Toy.of_nat 2) 1000)
           tt tt 2 512 (Py.decimal 9 1) "next_obs" true _ 0%nat 10%nat).
  vm_compute. reflexivity.
Defined.

Lemma zip_loop_surplus_draw_witness :
  zip_loop (Toy.lf_dynamics None) Toy.zero_grad Toy.backward Toy.optim_step
           tt tt "next_obs" true
           (replicate 2 (ret Toy.rl_batch) ++ Toy.failing_draw :: [])
           (replicate 2 (ret Toy.rand_batch)) [] 0%nat
  = (do dm_losses' <-
        zip_loop (Toy.lf_dynamics None) Toy.zero_grad Toy.backward Toy.optim_step
                 tt tt "next_obs" true
                 (replicate 2 (ret Toy.rl_batch))
                 (replicate 2 (ret Toy.rand_batch)) [] ;
     run Toy.failing_draw ;
     ret dm_losses')%monad 0%nat /\
  zip_loop (Toy.lf_dynamics None) Toy.zero_grad Toy.backward Toy.optim_step
           tt tt "next_obs" true
           (replicate 2 (ret Toy.rl_batch))
           (replicate 2 (ret Toy.rand_batch) ++ [Toy.failing_draw]) [] 0%nat
  = zip_loop (Toy.lf_dynamics None) Toy.zero_grad Toy.backward Toy.optim_step
             tt tt "next_obs" true
             (replicate 2 (ret Toy.rl_batch))
             (replicate 2 (ret Toy.rand_batch)) [] 0%nat.
Proof.
  apply (zip_loop_surplus_draw (Toy.lf_dynamics None) Toy.zero_grad
           Toy.backward Toy.optim_step tt tt "next_obs" true
           (replicate 2 (ret Toy.rl_batch)) (replicate 2 (ret Toy.rand_batch))
           [] [Toy.failing_draw] Toy.failing_draw [] 0%nat).
  reflexivity.
Defined.

Example toy_surplus_draw_fails :
  zip_loop (Toy.lf_dynamics None) Toy.zero_grad Toy.backward Toy.optim_step
           tt tt "next_obs" true
           (replicate 2 (ret Toy.rl_batch) ++ [Toy.failing_draw])
           (replicate 2 (ret Toy.rand_batch)) [] 0%nat
  = (Raise (ExternalError "source exhausted"), 2%nat).
Proof. vm_compute. reflexivity. Qed.

Lemma steps_per_epoch_raises_iff_witness :
  steps_per_epoch Toy.rl_traj Toy.rand_traj 0 (-1) = Raise ZeroDivisionError
  <-> ZeroDivisionError = ZeroDivisionError /\ 0 = 0 /\ -1 <= 0.
Proof.
  apply (proj2 (steps_per_epoch_raises_iff Toy.rl_traj Toy.rand_traj 0 (-1)
                  ZeroDivisionError) (-1) (Py.decimal 9 1)).
  vm_compute. reflexivity.
Defined.

Lemma train_dm_ignores_other_num_step_witness :
  Toy.train_dm None (mkTraj 100 (random_batch Toy.rl_traj)) Toy.rand_traj tt tt
               2 512 (Py.decimal 9 1) "next_obs" true 0%nat
  = Toy.train_dm None (mkTraj 7 (random_batch Toy.rl_traj)) Toy.rand_traj tt tt
                 2 512 (Py.decimal 9 1) "next_obs" true 0%nat.
Proof.
  apply (proj1 (train_dm_ignores_other_num_step (Toy.lf_dynamics None)
                  Toy.zero_grad Toy.backward Toy.optim_step Toy.logger_log
                  tt tt 2 512 (Py.decimal 9 1) "next_obs" true 460 52
                  ltac:(vm_compute; reflexivity))).
  lia.
Defined.

Lemma train_dm_no_epoch_witness :
  Toy.train_dm None Toy.rl_traj Toy.rand_traj tt tt (-3) 512 (Py.decimal 9 1)
               "next_obs" true 7%nat
  = (Ok {[ "DynModelLoss" := [] ]}, 7%nat).
Proof.
  apply (train_dm_no_epoch (Toy.lf_dynamics None) Toy.zero_grad Toy.backward
           Toy.optim_step Toy.logger_log Toy.rl_traj Toy.rand_traj tt tt
           (-3) 512 (Py.decimal 9 1) "next_obs" true 460 52 19 7%nat 7%nat 7%nat).
  - lia.
  - vm_compute. reflexivity.
  - reflexivity.
  - reflexivity.
  - reflexivity.
Defined.

Lemma train_dm_source_too_small_witness :
  steps_per_epoch Toy.rl_traj (Toy.traj (Toy.of_nat 2) 30) 460 52 = Ok 0 /\
  (random_batch (Toy.traj (Toy.of_nat 2) 30) 52 0 = [] ->
   forall result_dict w w',
     Toy.train_dm None Toy.rl_traj (Toy.traj (Toy.of_nat 2) 30) tt tt 60 512
                  (Py.decimal 9 1) "next_obs" true w = (Ok result_dict, w') ->
     result_dict = {[ "DynModelLoss" := [] ]}).
Proof.
  apply (train_dm_source_too_small (Toy.lf_dynamics None) Toy.zero_grad
           Toy.backward Toy.optim_step Toy.logger_log
           Toy.rl_traj (Toy.traj (Toy.of_nat 2) 30) tt tt 60 512
           (Py.decimal 9 1) "next_obs" true 460 52).
  - vm_compute. reflexivity.
  - simpl. lia.
Defined.

Lemma train_dm_history_prefix_witness :
  exists dm_losses later,
    ({[ "DynModelLoss" := replicate 19 (PyNdarray (mkNdArray (Toy.of_nat 512) Float32)) ]}
       : gmap string (list PyObj))
    = {[ "DynModelLoss" := dm_losses ]} /\
    ({[ "DynModelLoss" := replicate 38 (PyNdarray (mkNdArray (Toy.of_nat 512) Float32)) ]}
       : gmap string (list PyObj))
    = {[ "DynModelLoss" := dm_losses ++ later ]}.
Proof.
  apply (train_dm_history_prefix (Toy.lf_dynamics None) Toy.zero_grad
           Toy.backward Toy.optim_step Toy.logger_log
           Toy.rl_traj Toy.rand_traj tt tt 1 2 512 (Py.decimal 9 1)
           "next_obs" true _ _ 0%nat 19%nat 38%nat).
  - lia.
  - vm_compute. reflexivity.
  - vm_compute. reflexivity.
Defined.

Lemma train_dm_history_ndarrays_witness :
  exists dm_losses,
    ({[ "DynModelLoss" := replicate 38 (PyNdarray (mkNdArray (Toy.of_nat 512) Float32)) ]}
       : gmap string (list PyObj))
    = {[ "DynModelLoss" := dm_losses ]} /\
    Forall (fun x => exists a, x = PyNdarray a) dm_losses /\
    Forall (fun x => type_name x = "numpy.ndarray") dm_losses.
Proof.
  apply (train_dm_history_ndarrays (Toy.lf_dynamics None) Toy.zero_grad
           Toy.backward Toy.optim_step Toy.logger_log
           Toy.rl_traj Toy.rand_traj tt tt 2 512 (Py.decimal 9 1)
           "next_obs" true _ 0%nat 38%nat).
  vm_compute. reflexivity.
Defined.

Lemma train_dm_aborts_on_bad_batch_witness :
  Toy.train_dm None (Toy.flaky_traj 3 (Toy.of_nat 1) 100) Toy.rand_traj tt tt 2
               512 (Py.decimal 9 1) "next_obs" true 0%nat
  = (Raise (ExternalError "source exhausted"), 3%nat).
Proof.
  apply (proj1 (train_dm_aborts_on_bad_batch (Toy.lf_dynamics None)
                  Toy.zero_grad Toy.backward Toy.optim_step Toy.logger_log
                  (Toy.flaky_traj 3 (Toy.of_nat 1) 100) Toy.rand_traj tt tt 2
                  512 (Py.decimal 9 1) "next_obs" true 460 52 19 0%nat
                  (replicate 3 (ret Toy.rl_batch))
                  (replicate 15 Toy.failing_draw)
                  (replicate 3 (ret Toy.rand_batch))
                  (replicate 16 (ret Toy.rand_batch))
                  Toy.failing_draw
                  [] (replicate 3 (PyNdarray (mkNdArray (Toy.of_nat 512) Float32)))
                  (ExternalError "source exhausted")
                  0%nat 0%nat 0%nat 3%nat 3%nat
                  ltac:(vm_compute; reflexivity) eq_refl eq_refl
                  ltac:(vm_compute; lia) eq_refl eq_refl eq_refl eq_refl
                  ltac:(vm_compute; reflexivity))).
  reflexivity.
Defined.

Lemma merge_batch_raises_witness :
  (exists f, f ∈ merged_fields /\ KeyError "obs" = KeyError f /\
     ((size (∅ : Batch) = 0%nat /\ (∅ : Batch) !! f = None) \/
      (size (∅ : Batch) <> 0%nat /\ size (∅ : Batch) = 0%nat /\
       (∅ : Batch) !! f = None) \/
      (size (∅ : Batch) <> 0%nat /\ size (∅ : Batch) <> 0%nat /\
       ((∅ : Batch) !! f = None \/ (∅ : Batch) !! f = None)))) \/
  (size (∅ : Batch) <> 0%nat /\ size (∅ : Batch) <> 0%nat /\
   exists f t_rand t_rl msg,
     f ∈ merged_fields /\
     (∅ : Batch) !! f = Some t_rand /\ (∅ : Batch) !! f = Some t_rl /\
     trailing t_rand <> trailing t_rl /\ KeyError "obs" = RuntimeError msg).
Proof.
  apply (merge_batch_raises ∅ ∅ (KeyError "obs")).
  vm_compute. reflexivity.
Defined.

Example toy_merge_missing_field :
  merge_batch Toy.rl_batch (delete "acs" Toy.rand_batch) = Raise (KeyError "acs").
Proof. vm_compute. reflexivity. Qed.

Lemma merge_batch_reads_three_fields_witness :
  merge_batch Toy.rl_batch Toy.rand_batch
  = merge_batch (delete "rews" Toy.rl_batch) (<["dones" := Toy.tensor 1 (Toy.of_nat 0) 52]> Toy.rand_batch).
Proof.
  apply (merge_batch_reads_three_fields Toy.rl_batch Toy.rand_batch
           (delete "rews" Toy.rl_batch)
           (<["dones" := Toy.tensor 1 (Toy.of_nat 0) 52]> Toy.rand_batch)).
  - vm_compute. split; discriminate.
  - vm_compute. split; discriminate.
  - intros f Hf. apply elem_of_merged_fields in Hf as [-> | [-> | ->]];
      split; vm_compute; reflexivity.
Defined.

Lemma toy_picky_same (batch : Batch) (w : nat) :
  dom batch = (list_to_set merged_fields : gset string) ->
  Toy.lf_dynamics None tt batch "next_obs" true w
  = Toy.picky_lf_dynamics tt batch "next_obs" true w.
Proof.
  intros Hdom. unfold Toy.picky_lf_dynamics.
  assert (Hrews : batch !! "rews" = None).
  { apply not_elem_of_dom. rewrite Hdom. unfold merged_fields.
    rewrite elem_of_list_to_set, !elem_of_cons, elem_of_nil.
    intros [H | [H | [H | []]]]; discriminate. }
  rewrite Hrews. rewrite bool_decide_eq_false_2 by (intros [? ?]; discriminate).
  reflexivity.
Qed.

Lemma train_dm_uses_only_its_arguments_witness :
  Toy.train_dm None Toy.rl_traj Toy.rand_traj tt tt 2 512 (Py.decimal 9 1)
               "next_obs" true 0%nat
  = train_dm Toy.picky_lf_dynamics Toy.zero_grad Toy.backward Toy.optim_step
             Toy.logger_log Toy.rl_traj Toy.rand_traj tt tt 2 512
             (Py.decimal 9 1) "next_obs" true 0%nat.
Proof.
  apply (train_dm_uses_only_its_arguments (Toy.lf_dynamics None)
           Toy.picky_lf_dynamics Toy.zero_grad Toy.zero_grad Toy.backward
           Toy.optim_step Toy.optim_step Toy.logger_log tt tt "next_obs" true).
  - apply toy_picky_same.
  - reflexivity.
  - reflexivity.
Defined.

Lemma train_dm_rejects_non_finite_rate_witness :
  exists e,
    (e = ValueError \/ e = OverflowError) /\
    split_batch_size 512 S754_nan = Raise e /\
    forall w,
      Toy.train_dm None Toy.rl_traj Toy.rand_traj tt tt 2 512 S754_nan
                   "next_obs" true w = (Raise e, w).
Proof.
  apply (train_dm_rejects_non_finite_rate (Toy.lf_dynamics None) Toy.zero_grad
           Toy.backward Toy.optim_step Toy.logger_log
           Toy.rl_traj Toy.rand_traj tt tt 2 512 S754_nan "next_obs" true).
  reflexivity.
Defined.

Lemma split_batch_size_zero_rate_witness :
  split_batch_size 512 (S754_zero false) = Ok (0, 512) /\
  (0 < 512 ->
   steps_per_epoch Toy.rl_traj Toy.rand_traj 0 512
   = Ok (num_step Toy.rand_traj / 512)) /\
  (512 <= 0 ->
   steps_per_epoch Toy.rl_traj Toy.rand_traj 0 512 = Raise ZeroDivisionError).
Proof.
  apply (split_batch_size_zero_rate Toy.rl_traj Toy.rand_traj 512 false
           (S754_finite false 4503599627370496 (-43))).
  vm_compute. reflexivity.
Defined.

Lemma split_batch_size_unit_rate_witness :
  Py.decimal 1 0 = S754_finite false 4503599627370496 (-52) /\
  split_batch_size 512 (Py.decimal 1 0) = Ok (512, 0) /\
  steps_per_epoch Toy.rl_traj Toy.rand_traj 512 0
  = Py.floordiv (num_step Toy.rl_traj) 512 /\
  (steps_per_epoch Toy.rl_traj Toy.rand_traj 512 0 = Raise ZeroDivisionError
   <-> 512 = 0).
Proof.
  apply (split_batch_size_unit_rate Toy.rl_traj Toy.rand_traj 512).
  vm_compute. reflexivity.
Defined.

Lemma split_batch_size_nonneg_witness : 0 <= 460 /\ 52 <= 512.
Proof.
  apply (split_batch_size_nonneg 512 (Py.decimal 9 1) 460 52).
  - lia.
  - vm_compute. discriminate.
  - vm_compute. reflexivity.
Defined.

Lemma split_batch_size_within_witness :
  exists batch_size_rl batch_size_rand,
    split_batch_size 100 (Py.decimal 29 2) = Ok (batch_size_rl, batch_size_rand) /\
    batch_size_rl + batch_size_rand = 100 /\
    0 <= batch_size_rl <= 100 /\
    0 <= batch_size_rand <= 100.
Proof.
  apply (split_batch_size_within 100 (Py.decimal 29 2)).
  - vm_compute. split; [discriminate | reflexivity].
  - vm_compute. reflexivity.
  - vm_compute. discriminate.
  - vm_compute. discriminate.
Defined.

Lemma steps_per_epoch_defined_witness :
  exists batch_size_rl batch_size_rand step,
    split_batch_size 512 (Py.decimal 1 0) = Ok (batch_size_rl, batch_size_rand) /\
    steps_per_epoch Toy.rl_traj Toy.rand_traj batch_size_rl batch_size_rand
    = Ok step /\
    (0 <= num_step Toy.rl_traj -> 0 <= num_step Toy.rand_traj -> 0 <= step).
Proof.
  apply (steps_per_epoch_defined Toy.rl_traj Toy.rand_traj 512 (Py.decimal 1 0)).
  - vm_compute. split; reflexivity.
  - vm_compute. reflexivity.
  - vm_compute. discriminate.
  - vm_compute. discriminate.
Defined.

(** * When [train_dm] returns *)

Section Returning.
Context {W Model Optimizer : Type}.
Variable lf_dynamics : Model -> Batch -> string -> bool -> M W ScalarTensor.
Variable zero_grad : Optimizer -> M W unit.
Variable backward : ScalarTensor -> M W unit.
Variable optim_step : Optimizer -> M W unit.
Variable logger_log : string -> M W unit.

(** X19. [train_dm] returns exactly when the two sub-batch sizes and the
    step count are defined, both log calls return, and every draw, merge
    and update of every step of every epoch succeeds; it then returns the
    losses of these steps in their order, and leaves the world the second
    log call left. *)
Theorem train_dm_returns_iff (rl_traj rand_traj : Traj W) (dyn_model : Model)
    (optim_dm : Optimizer) (epoch batch_size : Z) (rl_batch_rate : Py.float64)
    (target : string) (td : bool) (result_dict : gmap string (list PyObj))
    (w w' : W) :
  train_dm lf_dynamics zero_grad backward optim_step logger_log
           rl_traj rand_traj dyn_model optim_dm epoch batch_size rl_batch_rate
           target td w = (Ok result_dict, w')
  <->
  exists batch_size_rl batch_size_rand step dm_losses w0 w1,
    split_batch_size batch_size rl_batch_rate
      = Ok (batch_size_rl, batch_size_rand) /\
    logger_log "Optimizing..." w = (Ok tt, w0) /\
    steps_per_epoch rl_traj rand_traj batch_size_rl batch_size_rand = Ok step /\
    run_losses lf_dynamics zero_grad backward optim_step
               dyn_model optim_dm target td rl_traj rand_traj
               batch_size_rl batch_size_rand step (Z.to_nat epoch)
               w0 dm_losses w1 /\
    logger_log "Optimization finished!" w1 = (Ok tt, w') /\
    result_dict = {[ "DynModelLoss" := dm_losses ]}.
Proof.
  split.
  - intros H.
    apply train_dm_inv in H
      as (bs_rl & bs_rand & step & dm_losses & w0 & w1 & Hsplit & Hlog & Hstep
          & Hloop & Hlog' & ->).
    apply epoch_loop_losses in Hloop as (new & E & Hrun). simpl in E. subst new.
    exists bs_rl, bs_rand, step, dm_losses, w0, w1. auto 10.
  - intros (bs_rl & bs_rand & step & dm_losses & w0 & w1 & Hsplit & Hlog & Hstep
            & Hrun & Hlog' & ->).
    eapply train_dm_returns; eassumption.
Qed.

End Returning.

Lemma train_dm_returns_iff_witness :
  Toy.train_dm None Toy.rl_traj Toy.one_step_rand_traj tt tt 2 512
               (Py.decimal 9 1) "next_obs" true 4%nat
  = (Ok {[ "DynModelLoss" :=
             [PyNdarray (mkNdArray (Toy.of_nat 512) Float32)]
             ++ [PyNdarray (mkNdArray (Toy.of_nat 512) Float32)] ++ [] ]},
     6%nat).
Proof.
  apply (proj2 (train_dm_returns_iff (Toy.lf_dynamics None) Toy.zero_grad
                  Toy.backward Toy.optim_step Toy.logger_log
                  Toy.rl_traj Toy.one_step_rand_traj tt tt 2 512 (Py.decimal 9 1)
                  "next_obs" true _ 4%nat 6%nat)).
  exists 460, 52, 1,
    ([PyNdarray (mkNdArray (Toy.of_nat 512) Float32)]
     ++ [PyNdarray (mkNdArray (Toy.of_nat 512) Float32)] ++ []),
    4%nat, 6%nat.
  split; [vm_compute; reflexivity |].
  split; [reflexivity |]. split; [reflexivity |].
  split; [| split; reflexivity].
  assert (Hstep : forall w : nat,
            train_step (Toy.lf_dynamics None) Toy.zero_grad Toy.backward
                       Toy.optim_step tt tt "next_obs" true
                       Toy.rl_batch Toy.rand_batch w
            = (Ok (PyNdarray (mkNdArray (Toy.of_nat 512) Float32)), S w)).
  { intros w. unfold train_step. rewrite toy_merge, bind_lift_ok.
    apply update_dm_ok
      with (dm_loss := mkScalar (Toy.of_nat 512) Float32 (Cuda 0) true
                                (Some "MseLossBackward"))
           (w1 := w) (w2 := w) (w3 := w);
      [| reflexivity | reflexivity | reflexivity | reflexivity].
    unfold Toy.lf_dynamics.
    rewrite bool_decide_eq_false_2 by discriminate.
    vm_compute. reflexivity. }
  eapply run_epoch with (w1 := 5%nat).
  { eapply losses_step with (w1 := 4%nat) (w2 := 4%nat) (w3 := 5%nat);
      [reflexivity | reflexivity | apply Hstep | apply losses_rl_exhausted]. }
  eapply run_epoch with (w1 := 6%nat).
  { eapply losses_step with (w1 := 5%nat) (w2 := 5%nat) (w3 := 6%nat);
      [reflexivity | reflexivity | apply Hstep | apply losses_rl_exhausted]. }
  apply run_no_epoch.
Defined.
